(** * Droidrun Portal clipboard manager (clip.py): model and properties

    A shallow embedding of [clip.py].  The class [DroidrunClipboard], the two
    convenience functions, the self-test harness and [main] are written as
    programs of a small state-and-exception monad.  Everything outside the
    Python process (the [adb] executable, the HTTP socket server, the JSON
    decoder of the standard library) is an environment [env] that answers each
    call; every call made to it is recorded, with its answer, in a trace. *)

From Stdlib Require Import String Ascii List ZArith Bool Lia DecimalString.
Import ListNotations.
Local Open Scope string_scope.
Local Open Scope Z_scope.

(** ** Python strings

    A [str] is modelled as a Rocq [string], one [ascii] per character, the
    code of the [ascii] being the code point: the texts of the model are
    over the first 256 code points.  (A literal of the program with a
    character beyond them stands here as the bytes of its UTF-8 encoding.) *)

Definition str_of_int (n : Z) : string := NilZero.string_of_int (Z.to_int n).

Definition LF : ascii := "010"%char.

(** [str.isspace] on one character: tab, line feed, vertical tab, form feed,
    carriage return, the four separators FS GS RS US, the space, next line
    (133) and the no-break space (160). *)
Definition is_space (c : ascii) : bool :=
  let n := nat_of_ascii c in
  ((9 <=? n) && (n <=? 13) || (28 <=? n) && (n <=? 32)
   || (n =? 133) || (n =? 160))%nat.

Fixpoint lstrip (s : string) : string :=
  match s with
  | EmptyString => EmptyString
  | String c s' => if is_space c then lstrip s' else s
  end.

Fixpoint rstrip (s : string) : string :=
  match s with
  | EmptyString => EmptyString
  | String c s' =>
      match rstrip s' with
      | EmptyString => if is_space c then EmptyString else String c EmptyString
      | r => String c r
      end
  end.

(** [s.strip()] *)
Definition strip (s : string) : string := rstrip (lstrip s).

(** [s.split(sep)] for a one-character separator: never the empty list. *)
Fixpoint split_on (sep : ascii) (s : string) : list string :=
  match s with
  | EmptyString => [EmptyString]
  | String c s' =>
      if Ascii.eqb c sep then EmptyString :: split_on sep s'
      else match split_on sep s' with
           | [] => [String c EmptyString]
           | h :: t => String c h :: t
           end
  end.

(** What is left of [s] after the prefix [p], when [p] is a prefix of [s]. *)
Fixpoint drop_prefix (p s : string) : option string :=
  match p, s with
  | EmptyString, _ => Some s
  | String a p', String b s' => if Ascii.eqb a b then drop_prefix p' s' else None
  | String _ _, EmptyString => None
  end.

(** The text before and after the first occurrence of [pat] in [s]. *)
Fixpoint partition (pat s : string) : option (string * string) :=
  match drop_prefix pat s with
  | Some rest => Some (EmptyString, rest)
  | None =>
      match s with
      | EmptyString => None
      | String c s' =>
          match partition pat s' with
          | Some (a, b) => Some (String c a, b)
          | None => None
          end
      end
  end.

(** [pat in s] *)
Definition str_in (pat s : string) : bool :=
  match partition pat s with Some _ => true | None => false end.

(** [s.split(pat, 1)] *)
Definition split1 (pat s : string) : list string :=
  match partition pat s with
  | Some (a, b) => [a; b]
  | None => [s]
  end.

(** [s.replace(old, new)] for a one-character [old], as both calls of
    [_set_adb] are. *)
Fixpoint replace (old : ascii) (new : string) (s : string) : string :=
  match s with
  | EmptyString => EmptyString
  | String c s' =>
      if Ascii.eqb c old then new ++ replace old new s'
      else String c (replace old new s')
  end.

(** [c.lower()]: the letters [A]-[Z], and the capital letters 192 to 222
    of Latin-1 (215, the multiplication sign, is not one), move up by 32. *)
Definition lower_char (c : ascii) : ascii :=
  let n := nat_of_ascii c in
  if ((65 <=? n) && (n <=? 90)
      || (192 <=? n) && (n <=? 222) && negb (n =? 215))%nat
  then ascii_of_nat (n + 32) else c.

(** [s.lower()] *)
Fixpoint lower (s : string) : string :=
  match s with
  | EmptyString => EmptyString
  | String c s' => String (lower_char c) (lower s')
  end.

(** [len(s)]: the number of characters of a text of the model.  (The bytes
    that stand for a character beyond U+00FF would be counted one by one:
    the program takes the length of no literal with such a character, and
    where a property below states a length, the text is of ASCII
    characters.) *)
Definition len (s : string) : Z := Z.of_nat (String.length s).

(** ** Python values and exceptions *)

(** The values [json.loads] builds, which are also what [get] may return:
    [PyNone] is Python's [None]. *)
#[local] Set Warnings "-register-all".
Inductive pyval : Type :=
| PyNone
| PyBool (b : bool)
| PyInt (n : Z)
| PyFloat (literal : string)
| PyStr (s : string)
| PyList (items : list pyval)
| PyDict (items : list (string * pyval)).

Definition is_success (v : pyval) : bool :=
  match v with
  | PyStr s => String.eqb s "success"
  | _ => false
  end.

Definition type_name (v : pyval) : string :=
  match v with
  | PyNone => "NoneType"
  | PyBool _ => "bool"
  | PyInt _ => "int"
  | PyFloat _ => "float"
  | PyStr _ => "str"
  | PyList _ => "list"
  | PyDict _ => "dict"
  end.

(** What the program can see of an exception: whether [except Exception]
    catches it, and its message ([str(e)]).  [KeyboardInterrupt] is the one
    exception [main] handles that [except Exception] lets through. *)
Inductive exn : Type :=
| Exception (msg : string)
| KeyboardInterrupt.

Inductive result (A : Type) : Type :=
| Ok (a : A)
| Raise (e : exn).
Arguments Ok {A} a.
Arguments Raise {A} e.

(** [d.get(key, default)] on the items of a dict *)
Fixpoint dict_get (items : list (string * pyval)) (key : string) (default : pyval) : pyval :=
  match items with
  | [] => default
  | (k, v) :: rest => if String.eqb k key then v else dict_get rest key default
  end.

(** [v.get(key, default)]: an [AttributeError] when [v] is not a dict. *)
Definition py_get (v : pyval) (key : string) (default : pyval) : result pyval :=
  match v with
  | PyDict items => Ok (dict_get items key default)
  | _ => Raise (Exception ("'" ++ type_name v ++ "' object has no attribute 'get'"))
  end.

(** [xs[1]] *)
Definition index1 (xs : list string) : result string :=
  match xs with
  | _ :: x :: _ => Ok x
  | _ => Raise (Exception "list index out of range")
  end.

(** ** The world outside the process *)

(** [subprocess.CompletedProcess] *)
Record CompletedProcess : Type := {
  returncode : Z;
  stdout : string;
  stderr : string
}.

(** [requests.Response], the attributes the program or [raise_for_status]
    reads. *)
Record Response : Type := {
  status_code : Z;
  reason : string;
  url : string;
  text : string
}.

(** One call that left the process, with what came back. *)
Inductive event : Type :=
| EvRun (argv : list string) (out : result CompletedProcess)
| EvGet (target : string) (timeout : option Z) (out : result Response)
| EvPost (target : string) (json : pyval) (headers : list (string * string))
         (out : result Response).

(** The environment.  [import_requests] is [None] when the module
    [requests] can be imported, and the exception [import requests] raises
    otherwise.  The answers of [subprocess.run], [requests.get] and
    [requests.post] may depend on the calls made so far.  [json_loads] is the
    standard library's decoder ([Raise] for a [JSONDecodeError]); [py_str]
    is [str()] on a value that is not a [str]; [help_text] is what
    argparse's [print_help] prints.  [stdout_rejects] is the encoding of
    standard output: for a line that encoding cannot take, the message of the
    [UnicodeEncodeError], and [None] for a line it can. *)
Record env : Type := {
  import_requests : option exn;
  subprocess_run : list event -> list string -> result CompletedProcess;
  requests_get : list event -> string -> option Z -> result Response;
  requests_post : list event -> string -> pyval -> list (string * string) -> result Response;
  json_loads : string -> result pyval;
  py_str : pyval -> string;
  help_text : string;
  stdout_rejects : string -> option string
}.

(** ** The object and the process state *)

Inductive Method : Type := auto | http | adb.

Record DroidrunClipboard : Type := {
  method : Method;
  port : Z;
  _http_available : option bool
}.

(** [DroidrunClipboard.__init__] *)
Definition __init__ (m : Method) (p : Z) : DroidrunClipboard :=
  {| method := m; port := p; _http_available := None |}.

(** The global [_clipboard], the calls made so far, and the two output
    streams (one entry per [print]). *)
Record state : Type := {
  _clipboard : DroidrunClipboard;
  trace : list event;
  sys_stdout : list string;
  sys_stderr : list string
}.

(** ** The monad of the program: state and exceptions *)

Definition M (A : Type) : Type := state -> result A * state.

Definition ret {A} (a : A) : M A := fun s => (Ok a, s).

Definition raise {A} (e : exn) : M A := fun s => (Raise e, s).

Definition bind {A B} (m : M A) (k : A -> M B) : M B :=
  fun s =>
    match m s with
    | (Ok a, s') => k a s'
    | (Raise e, s') => (Raise e, s')
    end.

Definition lift {A} (r : result A) : M A := fun s => (r, s).

Declare Scope py_scope.
Delimit Scope py_scope with py.
Notation "x <- m ;; k" := (bind m (fun x => k))
  (at level 61, m at next level, right associativity) : py_scope.
Notation "m ;; k" := (bind m (fun _ => k))
  (at level 61, right associativity) : py_scope.
Local Open Scope py_scope.

(** [try: body  except Exception as e: handler(str(e))] *)
Definition try_except {A} (body : M A) (handler : string -> M A) : M A :=
  fun s =>
    match body s with
    | (Raise (Exception msg), s') => handler msg s'
    | other => other
    end.

(** [try: body  except: handler] *)
Definition try_except_all {A} (body : M A) (handler : M A) : M A :=
  fun s =>
    match body s with
    | (Raise _, s') => handler s'
    | other => other
    end.

Definition self : M DroidrunClipboard := fun s => (Ok (_clipboard s), s).

Definition set_http_available (v : option bool) : M unit :=
  fun s =>
    (Ok tt,
     {| _clipboard := {| method := method (_clipboard s);
                         port := port (_clipboard s);
                         _http_available := v |};
        trace := trace s;
        sys_stdout := sys_stdout s;
        sys_stderr := sys_stderr s |}).

Definition record (e : event) (s : state) : state :=
  {| _clipboard := _clipboard s;
     trace := trace s ++ [e];
     sys_stdout := sys_stdout s;
     sys_stderr := sys_stderr s |}.

(** The state after a line was written to standard output. *)
Definition wrote (line : string) (s : state) : state :=
  {| _clipboard := _clipboard s;
     trace := trace s;
     sys_stdout := sys_stdout s ++ [line];
     sys_stderr := sys_stderr s |}.

(** A text of ASCII characters only. *)
Definition is_ascii_text (s : string) : bool :=
  forallb (fun c => (nat_of_ascii c <? 128)%nat) (list_ascii_of_string s).

(** [print(line)].  Standard output encodes strictly: a line with a
    character its encoding lacks raises a [UnicodeEncodeError] and nothing
    is written.  Every encoding of a standard stream has the ASCII
    characters, so a line of those is always written; for any other line
    the environment says.  (A standard output that is closed or broken is
    not modelled.) *)
Definition print (w : env) (line : string) : M unit :=
  fun s =>
    if is_ascii_text line then (Ok tt, wrote line s)
    else match stdout_rejects w line with
         | None => (Ok tt, wrote line s)
         | Some msg => (Raise (Exception msg), s)
         end.

(** [print(line, file=sys.stderr)].  The error stream replaces what its
    encoding lacks (its error handler is [backslashreplace]), so the line is
    always written. *)
Definition eprint (line : string) : M unit :=
  fun s =>
    (Ok tt,
     {| _clipboard := _clipboard s;
        trace := trace s;
        sys_stdout := sys_stdout s;
        sys_stderr := sys_stderr s ++ [line] |}).

(** [requests.Response.raise_for_status]: an [HTTPError] for a 4xx or a 5xx
    status, nothing for any other. *)
Definition raise_for_status (r : Response) : result unit :=
  if (400 <=? status_code r) && (status_code r <? 500) then
    Raise (Exception (str_of_int (status_code r) ++ " Client Error: " ++ reason r
                      ++ " for url: " ++ url r))
  else if (500 <=? status_code r) && (status_code r <? 600) then
    Raise (Exception (str_of_int (status_code r) ++ " Server Error: " ++ reason r
                      ++ " for url: " ++ url r))
  else Ok tt.

Section Program.

Variable w : env.

(** [import requests] *)
Definition import_ : M unit :=
  match import_requests w with
  | None => ret tt
  | Some e => raise e
  end.

(** [subprocess.run(argv, capture_output=True, text=True)] *)
Definition run (argv : list string) : M CompletedProcess :=
  fun s =>
    let out := subprocess_run w (trace s) argv in
    (out, record (EvRun argv out) s).

(** [requests.get(target, timeout=timeout)] *)
Definition requests_get_ (target : string) (timeout : option Z) : M Response :=
  fun s =>
    let out := requests_get w (trace s) target timeout in
    (out, record (EvGet target timeout out) s).

(** [requests.post(target, json=json, headers=headers)] *)
Definition requests_post_ (target : string) (json : pyval)
    (headers : list (string * string)) : M Response :=
  fun s =>
    let out := requests_post w (trace s) target json headers in
    (out, record (EvPost target json headers out) s).

(** *** class DroidrunClipboard *)

Definition forward_argv (p : Z) : list string :=
  ["adb"; "forward"; "tcp:" ++ str_of_int p; "tcp:" ++ str_of_int p].

Definition _setup_port_forwarding : M bool :=
  me <- self ;;
  result <- run (forward_argv (port me)) ;;
  ret (returncode result =? 0).

Definition ping_url (p : Z) : string := "http://localhost:" ++ str_of_int p ++ "/ping".

Definition _is_http_available : M bool :=
  me <- self ;;
  match _http_available me with
  | Some cached => ret cached
  | None =>
      try_except_all
        (import_ ;;
         _setup_port_forwarding ;;
         response <- requests_get_ (ping_url (port me)) (Some 1) ;;
         set_http_available (Some (status_code response =? 200)))
        (set_http_available (Some false)) ;;
      me <- self ;;
      ret (match _http_available me with Some b => b | None => false end)
  end.

Definition get_url (p : Z) : string := "http://localhost:" ++ str_of_int p ++ "/clipboard/get".

(** [response.json()] is the decoder applied to the body. *)
Definition _get_http : M pyval :=
  try_except
    (import_ ;;
     me <- self ;;
     response <- requests_get_ (get_url (port me)) None ;;
     lift (raise_for_status response) ;;
     data <- lift (json_loads w (text response)) ;;
     status <- lift (py_get data "status" PyNone) ;;
     if is_success status then
       content <- lift (py_get data "data" (PyStr "")) ;;
       ret content
     else ret PyNone)
    (fun e => raise (Exception ("HTTP GET failed: " ++ e))).

Definition set_url (p : Z) : string := "http://localhost:" ++ str_of_int p ++ "/clipboard/set".

Definition _set_http (txt : string) : M bool :=
  try_except
    (import_ ;;
     me <- self ;;
     response <- requests_post_ (set_url (port me))
                   (PyDict [("text", PyStr txt)])
                   [("Content-Type", "application/json")] ;;
     lift (raise_for_status response) ;;
     ret (str_in "success" (lower (text response))))
    (fun e => raise (Exception ("HTTP SET failed: " ++ e))).

Definition query_argv : list string :=
  ["adb"; "shell"; "content"; "query"; "--uri";
   "content://com.droidrun.portal/clipboard/get"].

(** The [for line in ...] loop of [_get_adb]: [Ok PyNone] when it falls
    through to [return None]. *)
Fixpoint scan_lines (lines : list string) : result pyval :=
  match lines with
  | [] => Ok PyNone
  | line :: rest =>
      if str_in "result=" line then
        match index1 (split1 "result=" line) with
        | Raise e => Raise e
        | Ok json_str =>
            match json_loads w json_str with
            | Raise e => Raise e
            | Ok outer_json =>
                match py_get outer_json "status" PyNone with
                | Raise e => Raise e
                | Ok status =>
                    if is_success status
                    then py_get outer_json "data" (PyStr "")
                    else scan_lines rest
                end
            end
        end
      else scan_lines rest
  end.

Definition _get_adb : M pyval :=
  try_except
    (result <- run query_argv ;;
     if negb (returncode result =? 0) then
       raise (Exception ("ADB command failed: " ++ stderr result))
     else lift (scan_lines (split_on LF (strip (stdout result)))))
    (fun e => raise (Exception ("ADB GET failed: " ++ e))).

Definition insert_cmd (escaped_text : string) : string :=
  "content insert --uri content://com.droidrun.portal/clipboard/set --bind 'text:s:"
  ++ escaped_text ++ "'".

Definition _set_adb (txt : string) : M bool :=
  try_except
    (let escaped_text := replace "'" "'\''" (replace "\" "\\" txt) in
     let cmd := insert_cmd escaped_text in
     result <- run ["adb"; "shell"; cmd] ;;
     ret (returncode result =? 0))
    (fun e => raise (Exception ("ADB SET failed: " ++ e))).

(** The condition of [get] and of [set]:
    [self.method == 'http' or (self.method == 'auto' and self._is_http_available())] *)
Definition wants_http : M bool :=
  me <- self ;;
  match method me with
  | http => ret true
  | auto => _is_http_available
  | adb => ret false
  end.

Definition get : M pyval :=
  h <- wants_http ;;
  if h then _get_http else _get_adb.

Definition set (txt : string) : M bool :=
  h <- wants_http ;;
  if h then _set_http txt else _set_adb txt.

(** *** Module level *)

Definition get_clipboard : M pyval := get.

Definition set_clipboard (txt : string) : M bool := set txt.

End Program.

(** ** The command line *)

Inductive Action : Type := act_get | act_set | act_test.

(** The [argparse.Namespace] that [parser.parse_args()] returns. *)
Record Namespace : Type := {
  args_action : Action;
  args_text : option string;
  args_method : Method;
  args_port : Z;
  args_basic : bool;
  args_stress : bool
}.

(** [_clipboard = DroidrunClipboard(...)] *)
Definition set_global (c : DroidrunClipboard) : M unit :=
  fun s =>
    (Ok tt,
     {| _clipboard := c;
        trace := trace s;
        sys_stdout := sys_stdout s;
        sys_stderr := sys_stderr s |}).

(** The two handlers that close [main]:
    [except KeyboardInterrupt: ...  except Exception as e: ...] *)
Definition try_main (body : M Z) (on_interrupt : M Z) (on_error : string -> M Z) : M Z :=
  fun s =>
    match body s with
    | (Raise KeyboardInterrupt, s') => on_interrupt s'
    | (Raise (Exception msg), s') => on_error msg s'
    | other => other
    end.

Section CommandLine.

Variable w : env.

(** The self-test harness ([run_basic_tests], [run_stress_tests],
    [run_all_tests]) is a parameter of [main] here; it is modelled in the
    next part, where [cli_main] puts it in place. *)
Variable run_basic_tests : M bool.
Variable run_stress_tests : M bool.
Variable run_all_tests : M Z.

(** What [print(text)] writes for the value [get_clipboard()] returned. *)
Definition shown (v : pyval) : string :=
  match v with
  | PyStr s => s
  | _ => py_str w v
  end.

Definition main (args : Namespace) : M Z :=
  set_global (__init__ (args_method args) (args_port args)) ;;
  try_main
    (match args_action args with
     | act_get =>
         txt <- get_clipboard w ;;
         match txt with
         | PyNone => eprint "(Clipboard is empty)" ;; ret 1
         | _ => print w (shown txt) ;; ret 0
         end
     | act_set =>
         match args_text args with
         | None =>
             eprint "Error: Text argument required for 'set' action" ;;
             print w (help_text w) ;;
             ret 1
         | Some t =>
             success <- set_clipboard w t ;;
             if success then
               print w ("✓ Clipboard set successfully (" ++ str_of_int (len t) ++ " chars)") ;;
               ret 0
             else
               eprint "✗ Failed to set clipboard" ;;
               ret 1
         end
     | act_test =>
         if args_basic args then
           ok <- run_basic_tests ;; ret (if ok then 0 else 1)
         else if args_stress args then
           ok <- run_stress_tests ;; ret (if ok then 0 else 1)
         else run_all_tests
     end)
    (eprint (String LF (String LF "Interrupted by user")) ;; ret 130)
    (fun e => eprint ("Error: " ++ e) ;; ret 1).

End CommandLine.

(** ** The self-test harness *)

Definition QUOTE : string := String (ascii_of_nat 34) EmptyString.
Definition NEWLINE : string := String LF EmptyString.
Definition TAB : string := String "009"%char EmptyString.

(** [s * n] *)
Fixpoint str_mul (s : string) (n : nat) : string :=
  match n with
  | O => EmptyString
  | S n' => s ++ str_mul s n'
  end.

(** The format [{s:width}] of a [str]: padded with spaces on the right. *)
Definition ljust (s : string) (width : nat) : string :=
  s ++ str_mul " " (width - String.length s).

(** [v == t] for a [str] [t] *)
Definition py_eq_str (v : pyval) (t : string) : bool :=
  match v with
  | PyStr s => String.eqb s t
  | _ => false
  end.

(** [len(v)]: a [TypeError] for a value that has no length. *)
Definition py_len (v : pyval) : result Z :=
  match v with
  | PyStr s => Ok (len s)
  | PyList items => Ok (Z.of_nat (List.length items))
  | PyDict items => Ok (Z.of_nat (List.length items))
  | _ => Raise (Exception ("object of type '" ++ type_name v ++ "' has no len()"))
  end.

(** [f"{method}"] *)
Definition method_name (m : Method) : string :=
  match m with
  | auto => "auto"
  | http => "http"
  | adb => "adb"
  end.

Definition bar : string := str_mul "=" 70.

(** The fixtures of [run_basic_tests]. *)
Definition test_cases : list (string * string) :=
  [
   ("Simple text",
    "Hello, World!");
   ("Emojis",
    "Hello 🌍! Testing emojis: 🚀 💻 ✨ 🎉");
   ("Special chars",
    "Special: !@#$%^&*()_+-=[]{}|;':" ++ QUOTE ++ ",./<>?");
   ("Multiline",
    "Line 1" ++ NEWLINE ++ "Line 2" ++ NEWLINE ++ "Line 3" ++ TAB ++ "Tabbed");
   ("International",
    "你好 مرحبا Здравствуй こんにちは 안녕하세요");
   ("Single quote",
    "It's working");
   ("Double quotes",
    "She said " ++ QUOTE ++ "Hello" ++ QUOTE);
   ("Backslash",
    "Path: C:\Users\Test");
   ("Mixed quotes",
    "It's a " ++ QUOTE ++ "test" ++ QUOTE ++ " with 'quotes'");
   ("Empty string",
    "")
  ].

Section Harness.

Variable w : env.

(** [repr()], left abstract. *)
Variable repr : pyval -> string.

(** The [for name, text in test_cases] loop, with its two counters. *)
Fixpoint basic_loop (cases : list (string * string)) (tests_passed tests_total : Z)
    : M (Z * Z) :=
  match cases with
  | [] => ret (tests_passed, tests_total)
  | (name, txt) :: rest =>
      let tests_total := tests_total + 1 in
      tests_passed <-
        try_except
          (set_clipboard w txt ;;
           retrieved <- get_clipboard w ;;
           let passed := py_eq_str retrieved txt in
           if passed then
             print w ("✓ " ++ ljust name 20 ++ " PASS") ;;
             ret (tests_passed + 1)
           else
             print w ("✗ " ++ ljust name 20 ++ " FAIL") ;;
             print w ("  Expected: " ++ repr (PyStr txt)) ;;
             print w ("  Got:      " ++ repr retrieved) ;;
             ret tests_passed)
          (fun e =>
             print w ("✗ " ++ ljust name 20 ++ " ERROR: " ++ e) ;;
             ret tests_passed) ;;
      basic_loop rest tests_passed tests_total
  end.

Definition run_basic_tests : M bool :=
  print w bar ;;
  print w "BASIC CLIPBOARD TESTS" ;;
  print w bar ;;
  print w "" ;;
  counters <- basic_loop test_cases 0 0 ;;
  let tests_passed := fst counters in
  let tests_total := snd counters in
  print w "" ;;
  print w bar ;;
  print w ("Results: " ++ str_of_int tests_passed ++ "/" ++ str_of_int tests_total
         ++ " tests passed") ;;
  print w bar ;;
  ret (tests_passed =? tests_total).

(** ["A" * 5000 + " END"] *)
Definition large_text : string := str_mul "A" 5000 ++ " END".

(** [''.join(chr(i) for i in range(32, 127))] *)
Definition ascii_text : string :=
  string_of_list_ascii (map ascii_of_nat (seq 32 95)).

(** The [for i in range(10)] loop of the second stress test; [todo] holds
    the values of [i] still to come. *)
Fixpoint rapid_loop (todo : list Z) (success_count : Z) : M Z :=
  match todo with
  | [] => ret success_count
  | i :: rest =>
      let txt := "Iteration " ++ str_of_int i ++ ": 🚀" in
      set_clipboard w txt ;;
      retrieved <- get_clipboard w ;;
      rapid_loop rest (if py_eq_str retrieved txt then success_count + 1
                       else success_count)
  end.

(** [range(10)] *)
Definition range10 : list Z := [0; 1; 2; 3; 4; 5; 6; 7; 8; 9].

Definition stress_test_1 (tests_passed : Z) : M Z :=
  print w "TEST 1: Large text (5000 characters)" ;;
  try_except
    (set_clipboard w large_text ;;
     retrieved <- get_clipboard w ;;
     if py_eq_str retrieved large_text then
       n <- lift (py_len retrieved) ;;
       print w ("  ✓ PASS (" ++ str_of_int n ++ " chars)") ;;
       ret (tests_passed + 1)
     else
       n <- lift (py_len retrieved) ;;
       print w ("  ✗ FAIL (expected " ++ str_of_int (len large_text) ++ ", got "
              ++ str_of_int n ++ " chars)") ;;
       ret tests_passed)
    (fun e => print w ("  ✗ ERROR: " ++ e) ;; ret tests_passed).

Definition stress_test_2 (tests_passed : Z) : M Z :=
  print w (NEWLINE ++ "TEST 2: Rapid set/get operations (10 iterations)") ;;
  try_except
    (success_count <- rapid_loop range10 0 ;;
     if success_count =? 10 then
       print w "  ✓ PASS (10/10 iterations succeeded)" ;;
       ret (tests_passed + 1)
     else
       print w ("  ✗ FAIL (" ++ str_of_int success_count ++ "/10 iterations succeeded)") ;;
       ret tests_passed)
    (fun e => print w ("  ✗ ERROR: " ++ e) ;; ret tests_passed).

Definition stress_test_3 (tests_passed : Z) : M Z :=
  print w (NEWLINE ++ "TEST 3: All printable ASCII characters") ;;
  try_except
    (set_clipboard w ascii_text ;;
     retrieved <- get_clipboard w ;;
     if py_eq_str retrieved ascii_text then
       print w "  ✓ PASS (95 ASCII chars)" ;;
       ret (tests_passed + 1)
     else
       print w "  ✗ FAIL" ;;
       ret tests_passed)
    (fun e => print w ("  ✗ ERROR: " ++ e) ;; ret tests_passed).

Definition run_stress_tests : M bool :=
  print w (NEWLINE ++ bar) ;;
  print w "STRESS TESTS" ;;
  print w bar ;;
  print w "" ;;
  (* tests_total is incremented once before each of the three tests *)
  let tests_total := 3 in
  tests_passed <- stress_test_1 0 ;;
  tests_passed <- stress_test_2 tests_passed ;;
  tests_passed <- stress_test_3 tests_passed ;;
  print w "" ;;
  print w bar ;;
  print w ("Stress Tests: " ++ str_of_int tests_passed ++ "/" ++ str_of_int tests_total
         ++ " passed") ;;
  print w bar ;;
  ret (tests_passed =? tests_total).

Definition run_all_tests : M Z :=
  basic_passed <- run_basic_tests ;;
  stress_passed <- run_stress_tests ;;
  print w (NEWLINE ++ bar) ;;
  print w "FINAL RESULTS" ;;
  print w bar ;;
  me <- self ;;
  let method_ := method_name (method me) in
  available <- _is_http_available w ;;
  (if available
   then print w ("Method used: " ++ method_ ++ " (HTTP Socket Server)")
   else print w ("Method used: " ++ method_ ++ " (ADB ContentProvider)")) ;;
  if basic_passed && stress_passed then
    print w (NEWLINE ++ "🎉 ALL TESTS PASSED!") ;;
    ret 0
  else
    print w (NEWLINE ++ "⚠️  SOME TESTS FAILED") ;;
    ret 1.

(** [main] with the harness in place: what [sys.exit(main())] runs. *)
Definition cli_main (args : Namespace) : M Z :=
  main w run_basic_tests run_stress_tests run_all_tests args.

End Harness.

(** ** Definitions used to state the properties *)

(** The final state of a program. *)
Definition exec {A} (m : M A) (s : state) : state := snd (m s).

(** What a single-quoted shell argument needs for one character of the text:
    a backslash is doubled, a quote becomes quote-backslash-quote-quote. *)
Definition escape_char (c : ascii) : string :=
  if Ascii.eqb c "\" then "\\"
  else if Ascii.eqb c "'" then "'\''"
  else String c EmptyString.

(** The calls a user of one [DroidrunClipboard] instance can make on it. *)
Inductive call : Type :=
| call_setup_port_forwarding
| call_is_http_available
| call_get
| call_set (txt : string)
| call_get_http
| call_set_http (txt : string)
| call_get_adb
| call_set_adb (txt : string).

Definition perform (w : env) (c : call) (s : state) : state :=
  match c with
  | call_setup_port_forwarding => exec (_setup_port_forwarding w) s
  | call_is_http_available => exec (_is_http_available w) s
  | call_get => exec (get w) s
  | call_set txt => exec (set w txt) s
  | call_get_http => exec (_get_http w) s
  | call_set_http txt => exec (_set_http w txt) s
  | call_get_adb => exec (_get_adb w) s
  | call_set_adb txt => exec (_set_adb w txt) s
  end.

Definition perform_all (w : env) (cs : list call) (s : state) : state :=
  fold_left (fun acc c => perform w c acc) cs s.

(** The cache of the instance in a state. *)
Definition cache (s : state) : option bool := _http_available (_clipboard s).



(** The state a probe leaves, from an empty cache: the calls [evs] were
    added to the trace and the cache holds [b]. *)
Definition probed (s : state) (evs : list event) (b : bool) : state :=
  {| _clipboard := {| method := method (_clipboard s);
                      port := port (_clipboard s);
                      _http_available := Some b |};
     trace := trace s ++ evs;
     sys_stdout := sys_stdout s;
     sys_stderr := sys_stderr s |}.

(** The body holds the word success, in any mix of upper and lower case. *)
Definition mentions_success (body : string) : Prop :=
  exists before word after,
    body = before ++ word ++ after /\ lower word = "success".

(** A status for which [raise_for_status] raises: 4xx or 5xx. *)
Definition is_error_status (code : Z) : Prop := 400 <= code < 600.

(** A line of the query output that carries the marker, and whose text
    after the first marker decodes to a JSON object with these items. *)
Definition decodes_to (w : env) (line : string) (items : list (string * pyval)) : Prop :=
  str_in "result=" line = true
  /\ exists json_str,
       index1 (split1 "result=" line) = Ok json_str
       /\ json_loads w json_str = Ok (PyDict items).

(** A line that yields nothing: it lacks the marker, or it decodes to an
    object whose status is not success. *)
Definition no_success (w : env) (line : string) : Prop :=
  str_in "result=" line = false
  \/ exists items,
       decodes_to w line items
       /\ is_success (dict_get items "status" PyNone) = false.

(** What the two handlers that close [main] make of an action's end. *)
Definition handled (outcome : result Z * state) : result Z * state :=
  match outcome with
  | (Raise KeyboardInterrupt, s') =>
      (eprint (String LF (String LF "Interrupted by user")) ;; ret 130) s'
  | (Raise (Exception msg), s') => (eprint ("Error: " ++ msg) ;; ret 1) s'
  | other => other
  end.

(** The state in which [main] calls the facade: the global holds a new
    instance built from the arguments. *)
Definition entered (args : Namespace) (s : state) : state :=
  exec (set_global (__init__ (args_method args) (args_port args))) s.

(** The program [m] leaves the part [f] of the state as it found it. *)
Definition preserves {X A} (f : state -> X) (m : M A) : Prop :=
  forall s, f (exec m s) = f s.

(** The program [m] leaves the cache as it is, or fills an empty one. *)
Definition settles {A} (m : M A) : Prop :=
  forall s,
    cache (exec m s) = cache s
    \/ (cache s = None /\ exists b, cache (exec m s) = Some b).

(** The two output streams. *)
Definition streams (s : state) : list string * list string :=
  (sys_stdout s, sys_stderr s).

(** The escaping of [_set_adb], as one function of the text. *)
Definition escaped (txt : string) : string :=
  replace "'" "'\''" (replace "\" "\\" txt).

(** A character the escaping leaves alone. *)
Definition is_plain (c : ascii) : bool :=
  negb (Ascii.eqb c "\" || Ascii.eqb c "'").

(** An HTTP call, as opposed to a run of [adb]. *)
Definition is_http_call (e : event) : bool :=
  match e with
  | EvRun _ _ => false
  | EvGet _ _ _ | EvPost _ _ _ _ => true
  end.

(** Every value the program [m] returns satisfies [P]. *)
Definition yields {A} (P : A -> Prop) (m : M A) : Prop :=
  forall s a, fst (m s) = Ok a -> P a.

(** The program [m] only adds lines to standard output, and leaves the
    error stream alone. *)
Definition appends {A} (m : M A) : Prop :=
  forall s,
    (exists lines, sys_stdout (exec m s) = (sys_stdout s ++ lines)%list)
    /\ sys_stderr (exec m s) = sys_stderr s.

(** No [Exception] leaves the program [m]: it returns, or it is
    interrupted. *)
Definition contains_errors {A} (m : M A) : Prop :=
  forall s msg, fst (m s) <> Raise (Exception msg).

(** The absence of a key from the items of a dict. *)
Definition lacks (items : list (string * pyval)) (key : string) : Prop :=
  forall v, ~ In (key, v) items.

(** *** The output of the query, described without the program's helpers *)












(** ** Sample environments

    Concrete devices on which the properties are exercised. *)

Module Sample.

Definition dq : string := String (ascii_of_nat 34) EmptyString.

(** The text [{"status": "<status>", "data": "<data>"}]. *)
Definition payload (status data : string) : string :=
  "{" ++ dq ++ "status" ++ dq ++ ": " ++ dq ++ status ++ dq ++ ", "
      ++ dq ++ "data" ++ dq ++ ": " ++ dq ++ data ++ dq ++ "}".

Definition decoded (status data : string) : pyval :=
  PyDict [("status", PyStr status); ("data", PyStr data)].

(** A decoder that agrees with [json.loads] on the four texts it accepts,
    and rejects every other text with the message [json.loads] has for a
    text that starts with no JSON value. *)
Definition loads (s : string) : result pyval :=
  if String.eqb s (payload "success" "hi") then Ok (decoded "success" "hi")
  else if String.eqb s (payload "success" "") then Ok (decoded "success" "")
  else if String.eqb s (payload "error" "") then Ok (decoded "error" "")
  else if String.eqb s "[]" then Ok (PyList [])
  else Raise (Exception "Expecting value: line 1 column 1 (char 0)").

Definition response (code : Z) (why target body : string) : Response :=
  {| status_code := code; reason := why; url := target; text := body |}.

Definition completed (code : Z) (out err : string) : CompletedProcess :=
  {| returncode := code; stdout := out; stderr := err |}.

(** A device described by what [adb] does with an argument list, what the
    socket server answers to a GET of a URL, and what it answers to a POST;
    its standard output takes every line. *)
Definition device
    (adb_does : list string -> result CompletedProcess)
    (server_get : string -> result Response)
    (server_post : string -> result Response) : env :=
  {| import_requests := None;
     subprocess_run := fun _ argv => adb_does argv;
     requests_get := fun _ target _ => server_get target;
     requests_post := fun _ target _ _ => server_post target;
     json_loads := loads;
     py_str := fun v => "<" ++ type_name v ++ ">";
     help_text := "usage: clip.py [-h] [--method {auto,http,adb}] [--port PORT] [--basic] [--stress] {get,set,test} [text]";
     stdout_rejects := fun _ => None |}.

Definition refused {A} : result A :=
  Raise (Exception "Connection refused").

(** [adb] is not installed: [subprocess.run] raises [FileNotFoundError]. *)
Definition no_adb : list string -> result CompletedProcess :=
  fun _ => Raise (Exception "[Errno 2] No such file or directory: 'adb'").

(** [adb] runs and every command exits with [code], printing [out]. *)
Definition adb_exits (code : Z) (out err : string) : list string -> result CompletedProcess :=
  fun _ => Ok (completed code out err).

(** The server answers every GET with the same status and body. *)
Definition serves (code : Z) (why body : string) : string -> result Response :=
  fun target => Ok (response code why target body).

(** The server answers [/ping] with 200 and any other URL with the given
    status and body. *)
Definition serves_after_ping (code : Z) (why body : string) : string -> result Response :=
  fun target =>
    if String.eqb target (ping_url 8080) then Ok (response 200 "OK" target "pong")
    else Ok (response code why target body).

Definition start (m : Method) (flag : option bool) : state :=
  {| _clipboard := {| method := m; port := 8080; _http_available := flag |};
     trace := [];
     sys_stdout := [];
     sys_stderr := [] |}.

(** The line [content query] prints for one row. *)
Definition row (status data : string) : string :=
  "Row: 0 result=" ++ payload status data ++ String LF EmptyString.

Definition cli (a : Action) (t : option string) (m : Method) : Namespace :=
  {| args_action := a; args_text := t; args_method := m; args_port := 8080;
     args_basic := false; args_stress := false |}.

End Sample.

(** The state after the lines [lines] were written to standard output,
    one after the other. *)
Definition printed (lines : list string) (s : state) : state :=
  fold_left (fun acc line => wrote line acc) lines s.

(** What standard output answers to a line: [None] when it takes the
    line, the message of the encoding error when it does not. *)
Definition stdout_answer (w : env) (line : string) : option string :=
  if is_ascii_text line then None else stdout_rejects w line.

(** A standard output that takes every line, as one in UTF-8 does. *)
Definition takes_all (w : env) : Prop :=
  forall line, stdout_rejects w line = None.

(** One step of a suite: a test that prints, and returns the counter as it
    was or one more; behind a standard output that takes every line, no
    [Exception] leaves it. *)
Definition test_step (w : env) (test : Z -> M Z) : Prop :=
  forall p,
    (takes_all w -> contains_errors (test p))
    /\ appends (test p)
    /\ yields (fun p' => p <= p' <= p + 1) (test p).

(** The three stress tests in a row. *)
Definition stress_tests (w : env) : M Z :=
  tests_passed <- stress_test_1 w 0 ;;
  tests_passed <- stress_test_2 w tests_passed ;;
  stress_test_3 w tests_passed.

(** Further sample devices. *)
Module Bench.

(** The text [{"status": "<status>"}]. *)
Definition status_only (status : string) : string :=
  "{" ++ QUOTE ++ "status" ++ QUOTE ++ ": " ++ QUOTE ++ status ++ QUOTE ++ "}".

(** A decoder that agrees with [json.loads] on the empty object and on an
    object with a [status] entry alone, and is [Sample.loads] elsewhere. *)
Definition loads (s : string) : result pyval :=
  if String.eqb s "{}" then Ok (PyDict [])
  else if String.eqb s (status_only "success")
       then Ok (PyDict [("status", PyStr "success")])
       else Sample.loads s.

(** The device [dev] with another decoder. *)
Definition decoding (loads : string -> result pyval) (dev : env) : env :=
  {| import_requests := import_requests dev;
     subprocess_run := subprocess_run dev;
     requests_get := requests_get dev;
     requests_post := requests_post dev;
     json_loads := loads;
     py_str := py_str dev;
     help_text := help_text dev;
     stdout_rejects := stdout_rejects dev |}.

(** The device [dev] behind a standard output that takes ASCII only, and
    answers any other line with [complaint]. *)
Definition ascii_stdout (complaint : string) (dev : env) : env :=
  {| import_requests := import_requests dev;
     subprocess_run := subprocess_run dev;
     requests_get := requests_get dev;
     requests_post := requests_post dev;
     json_loads := json_loads dev;
     py_str := py_str dev;
     help_text := help_text dev;
     stdout_rejects := fun _ => Some complaint |}.

(** A device on which nothing works: [requests] is not installed and
    [adb] is missing. *)
Definition dead : env :=
  {| import_requests := Some (Exception "No module named 'requests'");
     subprocess_run := fun _ => Sample.no_adb;
     requests_get := fun _ _ _ => Sample.refused;
     requests_post := fun _ _ _ _ => Sample.refused;
     json_loads := Sample.loads;
     py_str := fun v => "<" ++ type_name v ++ ">";
     help_text := "usage: clip.py";
     stdout_rejects := fun _ => None |}.

(** A stand-in for [repr]. *)
Definition repr (v : pyval) : string := "<" ++ type_name v ++ ">".

End Bench.

(** ** Properties *)

(** *** The escaping of [_set_adb] *)

Lemma escape_per_character (txt : string) :
  replace "'" "'\''" (replace "\" "\\" txt)
  = String.concat "" (map escape_char (list_ascii_of_string txt)).
Proof.
  assert (step : forall parts, String.concat "" parts
                 = fold_right String.append EmptyString parts).
  { induction parts as [|p [|q parts] IH]; simpl in *.
    - reflexivity.
    - clear IH. induction p as [|c p IHp]; simpl; [reflexivity|].
      now rewrite <- IHp.
    - now rewrite IH. }
  rewrite step. clear step.
  induction txt as [|c txt IH]; simpl; [reflexivity|].
  unfold escape_char at 1.
  destruct (Ascii.eqb c "\") eqn:Hb.
  - simpl. now rewrite IH.
  - simpl. destruct (Ascii.eqb c "'") eqn:Hq; simpl; now rewrite IH.
Qed.

Lemma set_adb_trace (w : env) (txt : string) (s : state) :
  exists cmd,
    trace (exec (_set_adb w txt) s)
    = (trace s ++ [EvRun ["adb"; "shell"; cmd]
                         (subprocess_run w (trace s) ["adb"; "shell"; cmd])])%list
    /\ cmd = insert_cmd (replace "'" "'\''" (replace "\" "\\" txt)).
Proof.
  eexists. split; [|reflexivity].
  unfold exec, _set_adb, try_except, bind, run, ret, raise.
  destruct (subprocess_run w (trace s) _) as [r|[msg|]]; reflexivity.
Qed.

Example escape_single_quote :
  replace "'" "'\''" (replace "\" "\\" "It's working") = "It'\''s working".
Proof. reflexivity. Qed.

Example escape_windows_path :
  replace "'" "'\''" (replace "\" "\\" "Path: C:\Users\Test")
  = "Path: C:\\Users\\Test".
Proof. reflexivity. Qed.

(** The order of the two replacements matters: the other way round, the
    backslash that escapes a quote would be doubled as well. *)
Example escape_other_order_differs :
  replace "\" "\\" (replace "'" "'\''" "'") = "'\\''"
  /\ replace "'" "'\''" (replace "\" "\\" "'") = "'\''".
Proof. split; reflexivity. Qed.

(** C1.  For every text, [_set_adb] runs exactly one command,
    [adb shell <cmd>], where [<cmd>] is the content insert command whose
    single-quoted [text:s:] binding holds the text after every backslash was
    replaced by two backslashes and then every single quote by the four
    characters quote, backslash, quote, quote.  Taken character by
    character, a backslash of the text becomes two backslashes, a quote
    becomes those four characters, and any other character stays. *)
Theorem set_adb_escaping (w : env) (txt : string) (s : state) :
  let escaped := replace "'" "'\''" (replace "\" "\\" txt) in
  let argv :=
    ["adb"; "shell";
     "content insert --uri content://com.droidrun.portal/clipboard/set --bind 'text:s:"
     ++ escaped ++ "'"] in
  trace (exec (_set_adb w txt) s)
  = (trace s ++ [EvRun argv (subprocess_run w (trace s) argv)])%list
  /\ escaped = String.concat "" (map escape_char (list_ascii_of_string txt)).
Proof.
  intros escaped argv. split; [|apply escape_per_character].
  subst escaped argv.
  destruct (set_adb_trace w txt s) as (cmd & Htrace & ->). exact Htrace.
Qed.

(** *** The availability probe *)

Lemma probe_cached (w : env) (s : state) (b : bool) :
  cache s = Some b -> _is_http_available w s = (Ok b, s).
Proof.
  unfold cache, _is_http_available, bind, self. intros ->. reflexivity.
Qed.

Lemma probe_fresh (w : env) (s : state) :
  cache s = None ->
  let p := port (_clipboard s) in
  let fwd := subprocess_run w (trace s) (forward_argv p) in
  let t1 := (trace s ++ [EvRun (forward_argv p) fwd])%list in
  let png := requests_get w t1 (ping_url p) (Some 1) in
  _is_http_available w s =
  match import_requests w with
  | Some _ => (Ok false, probed s [] false)
  | None =>
      match fwd with
      | Raise _ => (Ok false, probed s [EvRun (forward_argv p) fwd] false)
      | Ok _ =>
          match png with
          | Raise _ =>
              (Ok false,
               probed s [EvRun (forward_argv p) fwd; EvGet (ping_url p) (Some 1) png] false)
          | Ok r =>
              (Ok (status_code r =? 200),
               probed s [EvRun (forward_argv p) fwd; EvGet (ping_url p) (Some 1) png]
                      (status_code r =? 200))
          end
      end
  end.
Proof.
  intros fresh p fwd t1 png. subst p fwd t1 png.
  unfold cache in fresh.
  unfold _is_http_available, bind at 1, self at 1. rewrite fresh.
  unfold try_except_all, _setup_port_forwarding, import_, requests_get_, run,
    set_http_available, bind, self, ret, raise, record, probed.
  destruct (import_requests w) as [e|]; simpl.
  - now rewrite app_nil_r.
  - destruct (subprocess_run w (trace s) _) as [c|e]; simpl; [|reflexivity].
    destruct (requests_get w _ _ _) as [r|e]; simpl;
      rewrite <- app_assoc; reflexivity.
Qed.

Lemma probe_available_cases (w : env) (s : state) :
  cache s = None ->
  exists b evs, _is_http_available w s = (Ok b, probed s evs b).
Proof.
  intros fresh. rewrite (probe_fresh w s fresh).
  destruct (import_requests w); [now eexists _, _|].
  destruct (subprocess_run w (trace s) _); [|now eexists _, _].
  destruct (requests_get w _ _ _); now eexists _, _.
Qed.



(** On a device whose [/ping] answers 200, the probe reports available,
    and on one whose [/ping] answers 404 it reports unavailable. *)
Example probe_on_ping_200 :
  fst (_is_http_available
         (Sample.device (Sample.adb_exits 0 "" "")
                        (Sample.serves 200 "OK" "pong") (fun _ => Sample.refused))
         (Sample.start auto None)) = Ok true
  /\ fst (_is_http_available
            (Sample.device (Sample.adb_exits 0 "" "")
                           (Sample.serves 404 "Not Found" "") (fun _ => Sample.refused))
            (Sample.start auto None)) = Ok false.
Proof. split; reflexivity. Qed.




(** *** Frames: what a program leaves unchanged *)

Section Frame.

Context {X : Type} (f : state -> X).

(** [f] does not read the trace. *)
Hypothesis f_record : forall e s, f (record e s) = f s.

Lemma preserves_ret {A} (a : A) : preserves f (ret a).
Proof. intro s. reflexivity. Qed.

Lemma preserves_raise {A} (e : exn) : preserves f (@raise A e).
Proof. intro s. reflexivity. Qed.

Lemma preserves_lift {A} (r : result A) : preserves f (lift r).
Proof. intro s. reflexivity. Qed.

Lemma preserves_self : preserves f self.
Proof. intro s. reflexivity. Qed.

Lemma preserves_bind {A B} (m : M A) (k : A -> M B) :
  preserves f m -> (forall a, preserves f (k a)) -> preserves f (bind m k).
Proof.
  intros Hm Hk s. unfold exec, bind. specialize (Hm s). unfold exec in Hm.
  destruct (m s) as [[a|e] s1]; simpl in *; [|exact Hm].
  rewrite <- Hm. apply (Hk a s1).
Qed.

Lemma preserves_try_except {A} (body : M A) (handler : string -> M A) :
  preserves f body -> (forall msg, preserves f (handler msg)) ->
  preserves f (try_except body handler).
Proof.
  intros Hb Hh s. unfold exec, try_except. specialize (Hb s). unfold exec in Hb.
  destruct (body s) as [[a|[msg|]] s1]; simpl in *; try exact Hb.
  rewrite <- Hb. apply (Hh msg s1).
Qed.

Lemma preserves_try_except_all {A} (body handler : M A) :
  preserves f body -> preserves f handler ->
  preserves f (try_except_all body handler).
Proof.
  intros Hb Hh s. unfold exec, try_except_all. specialize (Hb s). unfold exec in Hb.
  destruct (body s) as [[a|e] s1]; simpl in *; try exact Hb.
  rewrite <- Hb. apply (Hh s1).
Qed.

Lemma preserves_if {A} (c : bool) (m1 m2 : M A) :
  preserves f m1 -> preserves f m2 -> preserves f (if c then m1 else m2).
Proof. destruct c; auto. Qed.

Lemma preserves_import (w : env) : preserves f (import_ w).
Proof. unfold import_. destruct (import_requests w); intro s; reflexivity. Qed.

Lemma preserves_run (w : env) (argv : list string) : preserves f (run w argv).
Proof. intro s. apply f_record. Qed.

Lemma preserves_requests_get (w : env) (target : string) (timeout : option Z) :
  preserves f (requests_get_ w target timeout).
Proof. intro s. apply f_record. Qed.

Lemma preserves_requests_post (w : env) (target : string) (json : pyval)
    (headers : list (string * string)) :
  preserves f (requests_post_ w target json headers).
Proof. intro s. apply f_record. Qed.

(** Walks down a program built from the calls above. *)
Ltac frame :=
  repeat (intros;
          first [ apply preserves_ret | apply preserves_raise | apply preserves_lift
                | apply preserves_self | apply preserves_import | apply preserves_run
                | apply preserves_requests_get | apply preserves_requests_post
                | apply preserves_try_except | apply preserves_try_except_all
                | apply preserves_bind | apply preserves_if ]).

Lemma preserves_setup_port_forwarding (w : env) :
  preserves f (_setup_port_forwarding w).
Proof. unfold _setup_port_forwarding. frame. Qed.

Lemma preserves_get_http (w : env) : preserves f (_get_http w).
Proof. unfold _get_http. frame. Qed.

Lemma preserves_set_http (w : env) (txt : string) : preserves f (_set_http w txt).
Proof. unfold _set_http. frame. Qed.

Lemma preserves_get_adb (w : env) : preserves f (_get_adb w).
Proof. unfold _get_adb. frame. Qed.

Lemma preserves_set_adb (w : env) (txt : string) : preserves f (_set_adb w txt).
Proof. unfold _set_adb. frame. Qed.

(** [f] does not read the cache either. *)
Hypothesis f_flag : forall v, preserves f (set_http_available v).

Lemma preserves_probe (w : env) : preserves f (_is_http_available w).
Proof.
  unfold _is_http_available. apply preserves_bind; [apply preserves_self|].
  intros me. destruct (_http_available me); [apply preserves_ret|].
  unfold _setup_port_forwarding. frame; intros; apply f_flag.
Qed.

Lemma preserves_wants_http (w : env) : preserves f (wants_http w).
Proof.
  unfold wants_http. apply preserves_bind; [apply preserves_self|].
  intros me. destruct (method me);
    [apply preserves_probe|apply preserves_ret|apply preserves_ret].
Qed.

Lemma preserves_get (w : env) : preserves f (get w).
Proof.
  unfold get. apply preserves_bind; [apply preserves_wants_http|].
  intros [|]; [apply preserves_get_http|apply preserves_get_adb].
Qed.

Lemma preserves_set (w : env) (txt : string) : preserves f (set w txt).
Proof.
  unfold set. apply preserves_bind; [apply preserves_wants_http|].
  intros [|]; [apply preserves_set_http|apply preserves_set_adb].
Qed.

End Frame.

(** *** The memoized flag *)

Lemma keeps_settles {A} (m : M A) : preserves _clipboard m -> settles m.
Proof. intros Hm s. left. unfold cache. now rewrite Hm. Qed.

Lemma settles_bind {A B} (m : M A) (k : A -> M B) :
  settles m -> (forall a, settles (k a)) -> settles (bind m k).
Proof.
  intros Hm Hk s. unfold exec, bind. specialize (Hm s). unfold exec in Hm.
  destruct (m s) as [[a|e] s1]; simpl in *; [|exact Hm].
  specialize (Hk a s1). unfold exec in Hk.
  destruct Hk as [Hsame|[Hnone (b & Hb)]].
  - rewrite Hsame. exact Hm.
  - right. destruct Hm as [Hsame|[Hs _]].
    + split; [congruence|]. now exists b.
    + split; [exact Hs|]. now exists b.
Qed.

Lemma settles_probe (w : env) : settles (_is_http_available w).
Proof.
  intros s. destruct (cache s) as [b|] eqn:Hc.
  - left. unfold exec. now rewrite (probe_cached w s b Hc).
  - right. split; [reflexivity|].
    destruct (probe_available_cases w s Hc) as (b & evs & Heq).
    exists b. unfold exec. now rewrite Heq.
Qed.

Lemma settles_wants_http (w : env) : settles (wants_http w).
Proof.
  unfold wants_http.
  apply settles_bind; [apply keeps_settles, preserves_self|].
  intros me. destruct (method me).
  - apply settles_probe.
  - apply keeps_settles, preserves_ret.
  - apply keeps_settles, preserves_ret.
Qed.

Lemma settles_perform (w : env) (c : call) (s : state) :
  cache (perform w c s) = cache s
  \/ (cache s = None /\ exists b, cache (perform w c s) = Some b).
Proof.
  assert (kept : forall e s0, _clipboard (record e s0) = _clipboard s0)
    by reflexivity.
  destruct c; simpl.
  - apply keeps_settles, preserves_setup_port_forwarding, kept.
  - apply settles_probe.
  - unfold get. apply settles_bind; [apply settles_wants_http|].
    intros [|]; apply keeps_settles;
      [apply preserves_get_http|apply preserves_get_adb]; exact kept.
  - unfold set. apply settles_bind; [apply settles_wants_http|].
    intros [|]; apply keeps_settles;
      [apply preserves_set_http|apply preserves_set_adb]; exact kept.
  - apply keeps_settles, preserves_get_http, kept.
  - apply keeps_settles, preserves_set_http, kept.
  - apply keeps_settles, preserves_get_adb, kept.
  - apply keeps_settles, preserves_set_adb, kept.
Qed.

Lemma cache_kept_by_calls (w : env) (cs : list call) (s : state) (b : bool) :
  cache s = Some b -> cache (perform_all w cs s) = Some b.
Proof.
  revert s. induction cs as [|c cs IH]; intros s Hb; simpl; [exact Hb|].
  apply IH. destruct (settles_perform w c s) as [Hsame|[Hnone _]]; congruence.
Qed.

(** C8.  The flag is an [option bool]: empty, or one of the two answers.
    A probe on an empty flag fills it with the answer it returns.  No call on
    the instance empties or changes a filled flag: each call either leaves
    the flag as it was or fills an empty one.  So after any sequence of
    calls on an instance whose flag holds [b], the flag still holds [b], and
    a probe then returns [b] with no call to the outside and no change of
    state. *)
Theorem cache_filled_once_never_invalidated (w : env) :
  (forall s, cache s = None ->
     exists b, fst (_is_http_available w s) = Ok b
               /\ cache (exec (_is_http_available w) s) = Some b)
  /\ (forall c s,
        cache (perform w c s) = cache s
        \/ (cache s = None /\ exists b, cache (perform w c s) = Some b))
  /\ (forall cs s b, cache s = Some b ->
        cache (perform_all w cs s) = Some b
        /\ _is_http_available w (perform_all w cs s) = (Ok b, perform_all w cs s)).
Proof.
  split; [|split].
  - intros s Hc. destruct (probe_available_cases w s Hc) as (b & evs & Heq).
    exists b. unfold exec. rewrite Heq. split; reflexivity.
  - apply settles_perform.
  - intros cs s b Hb. pose proof (cache_kept_by_calls w cs s b Hb) as Hk.
    split; [exact Hk|]. now apply probe_cached.
Qed.

Lemma cache_filled_once_never_invalidated_witness :
  let dev := Sample.device (Sample.adb_exits 0 "" "")
                           (Sample.serves 200 "OK" "pong")
                           (Sample.serves 200 "OK" "success") in
  let s := Sample.start auto (Some false) in
  let cs := [call_get; call_set "x"; call_is_http_available; call_get_http] in
  cache s = Some false
  /\ cache (perform_all dev cs s) = Some false
  /\ _is_http_available dev (perform_all dev cs s) = (Ok false, perform_all dev cs s).
Proof.
  split; [reflexivity|].
  apply (cache_filled_once_never_invalidated
           (Sample.device (Sample.adb_exits 0 "" "")
                          (Sample.serves 200 "OK" "pong")
                          (Sample.serves 200 "OK" "success"))).
  reflexivity.
Defined.

(** *** The facade *)

Lemma get_adb_trace (w : env) (s : state) :
  trace (exec (_get_adb w) s)
  = (trace s ++ [EvRun query_argv (subprocess_run w (trace s) query_argv)])%list.
Proof.
  unfold exec, _get_adb, try_except, bind, run, raise, lift.
  destruct (subprocess_run w (trace s) query_argv) as [r|[msg|]]; simpl;
    try reflexivity.
  destruct (negb (returncode r =? 0)); simpl; [reflexivity|].
  destruct (scan_lines w _) as [v|[msg|]]; reflexivity.
Qed.

(** C2.  [get] and [set] are their HTTP adapter when the mode is [http],
    and their shell adapter when it is [adb].  In [auto] mode the probe runs
    first and returns a boolean; the call then continues, from the state the
    probe left, as the HTTP adapter when that boolean is true and as the
    shell adapter when it is false.  A shell adapter adds exactly one call to
    the trace, a run of [adb], so no HTTP request is made on the shell path;
    in [auto] mode with the flag already holding unavailable, the whole call
    is the shell adapter. *)
Theorem facade_dispatch (w : env) (s : state) (txt : string) :
  match method (_clipboard s) with
  | http => get w s = _get_http w s /\ set w txt s = _set_http w txt s
  | adb => get w s = _get_adb w s /\ set w txt s = _set_adb w txt s
  | auto =>
      exists b s',
        _is_http_available w s = (Ok b, s')
        /\ get w s = (if b then _get_http w s' else _get_adb w s')
        /\ set w txt s = (if b then _set_http w txt s' else _set_adb w txt s')
  end
  /\ (forall s',
        (exists out, trace (exec (_get_adb w) s')
                     = (trace s' ++ [EvRun query_argv out])%list)
        /\ (exists cmd out, trace (exec (_set_adb w txt) s')
                            = (trace s' ++ [EvRun ["adb"; "shell"; cmd] out])%list))
  /\ (method (_clipboard s) = auto -> cache s = Some false ->
        get w s = _get_adb w s /\ set w txt s = _set_adb w txt s).
Proof.
  split; [|split].
  - destruct (method (_clipboard s)) eqn:Hm;
      unfold get, set, wants_http, bind, self; rewrite Hm.
    + destruct (cache s) as [b|] eqn:Hc.
      * exists b, s. rewrite (probe_cached w s b Hc).
        repeat split; destruct b; reflexivity.
      * destruct (probe_available_cases w s Hc) as (b & evs & Heq).
        exists b, (probed s evs b). rewrite Heq.
        repeat split; destruct b; reflexivity.
    + split; reflexivity.
    + split; reflexivity.
  - intros s'. split.
    + eexists. apply get_adb_trace.
    + destruct (set_adb_trace w txt s') as (cmd & Hcmd & _).
      eexists cmd, _. exact Hcmd.
  - intros Hm Hc. unfold get, set, wants_http, bind, self. rewrite Hm.
    rewrite (probe_cached w s false Hc). split; reflexivity.
Qed.

Lemma facade_dispatch_witness :
  let dev := Sample.device (Sample.adb_exits 0 (Sample.row "success" "hi") "")
                           (Sample.serves 200 "OK" "pong")
                           (Sample.serves 200 "OK" "success") in
  let s := Sample.start auto (Some false) in
  method (_clipboard s) = auto
  /\ cache s = Some false
  /\ get dev s = _get_adb dev s
  /\ set dev "x" s = _set_adb dev "x" s.
Proof.
  split; [reflexivity|]. split; [reflexivity|].
  apply (facade_dispatch
           (Sample.device (Sample.adb_exits 0 (Sample.row "success" "hi") "")
                          (Sample.serves 200 "OK" "pong")
                          (Sample.serves 200 "OK" "success"))
           (Sample.start auto (Some false)) "x"); reflexivity.
Defined.

(** *** Substrings and case *)

Lemma string_app_length (a b : string) :
  String.length (a ++ b) = (String.length a + String.length b)%nat.
Proof. induction a as [|c a IH]; simpl; [reflexivity|now rewrite IH]. Qed.

Lemma string_app_assoc (a b c : string) : (a ++ b) ++ c = a ++ b ++ c.
Proof. induction a as [|x a IH]; simpl; [reflexivity|now rewrite IH]. Qed.

Lemma string_app_inv_head (a b c : string) : a ++ b = a ++ c -> b = c.
Proof.
  induction a as [|x a IH]; simpl; [auto|].
  intros H. injection H as H. auto.
Qed.

Lemma string_app_inv_tail (a b c : string) : a ++ c = b ++ c -> a = b.
Proof.
  revert b. induction a as [|x a IH]; intros [|y b] H; simpl in H.
  - reflexivity.
  - exfalso. apply (f_equal String.length) in H. simpl in H.
    rewrite string_app_length in H. lia.
  - exfalso. apply (f_equal String.length) in H. simpl in H.
    rewrite string_app_length in H. lia.
  - injection H as -> H. f_equal. now apply IH.
Qed.

Lemma drop_prefix_app (p rest : string) : drop_prefix p (p ++ rest) = Some rest.
Proof.
  induction p as [|c p IH]; simpl; [destruct rest; reflexivity|].
  rewrite Ascii.eqb_refl. exact IH.
Qed.

Lemma drop_prefix_sound (p s rest : string) :
  drop_prefix p s = Some rest -> s = p ++ rest.
Proof.
  revert s. induction p as [|c p IH]; intros s H.
  - destruct s; simpl in H; injection H as <-; reflexivity.
  - destruct s as [|d s]; simpl in H; [discriminate|].
    destruct (Ascii.eqb_spec c d) as [->|]; [|discriminate].
    simpl. f_equal. now apply IH.
Qed.

Lemma partition_sound (pat s a b : string) :
  partition pat s = Some (a, b) -> s = a ++ pat ++ b.
Proof.
  revert a. induction s as [|c s IH]; intros a H; simpl in H.
  - destruct (drop_prefix pat EmptyString) as [rest|] eqn:Hd; [|discriminate].
    injection H as <- <-. simpl. now apply drop_prefix_sound.
  - destruct (drop_prefix pat (String c s)) as [rest|] eqn:Hd.
    + injection H as <- <-. simpl. now apply drop_prefix_sound.
    + destruct (partition pat s) as [[a' b']|]; [|discriminate].
      injection H as <- <-. simpl. f_equal. now apply IH.
Qed.

Lemma partition_complete (pat before after : string) :
  partition pat (before ++ pat ++ after) <> None.
Proof.
  induction before as [|c before IH]; simpl.
  - destruct (pat ++ after) eqn:E; simpl; rewrite <- E, drop_prefix_app; discriminate.
  - destruct (drop_prefix pat _); [discriminate|].
    destruct (partition pat (before ++ pat ++ after)) as [[a b]|]; [discriminate|].
    now apply IH.
Qed.

Lemma str_in_spec (pat s : string) :
  str_in pat s = true <-> exists before after, s = before ++ pat ++ after.
Proof.
  unfold str_in. split.
  - destruct (partition pat s) as [[a b]|] eqn:Hp; [|discriminate].
    intros _. exists a, b. now apply partition_sound.
  - intros (before & after & ->).
    destruct (partition pat _) eqn:Hp; [reflexivity|].
    now apply partition_complete in Hp.
Qed.

Lemma lower_app (a b : string) : lower (a ++ b) = lower a ++ lower b.
Proof. induction a as [|c a IH]; simpl; [reflexivity|now rewrite IH]. Qed.

Lemma lower_split (s a b : string) :
  lower s = a ++ b -> exists a' b', s = a' ++ b' /\ lower a' = a /\ lower b' = b.
Proof.
  revert s. induction a as [|c a IH]; intros s H; simpl in H.
  - exists EmptyString, s. auto.
  - destruct s as [|d s]; simpl in H; [discriminate|].
    injection H as Hc Hs. destruct (IH s Hs) as (a' & b' & -> & Ha & Hb).
    exists (String d a'), b'. simpl. rewrite Hc, Ha. auto.
Qed.

Lemma success_check_spec (body : string) :
  str_in "success" (lower body) = true <-> mentions_success body.
Proof.
  rewrite str_in_spec. unfold mentions_success. split.
  - intros (before & after & H).
    destruct (lower_split _ _ _ H) as (b' & rest & -> & Hb & Hrest).
    destruct (lower_split _ _ _ Hrest) as (word & a' & -> & Hw & Ha).
    now exists b', word, a'.
  - intros (before & word & after & -> & Hw).
    exists (lower before), (lower after). now rewrite !lower_app, Hw.
Qed.

(** *** The HTTP adapter *)

Lemma raise_for_status_error (r : Response) :
  is_error_status (status_code r) ->
  exists detail, raise_for_status r = Raise (Exception detail).
Proof.
  unfold is_error_status, raise_for_status. intros [Hlo Hhi].
  destruct (status_code r <? 500) eqn:H5.
  - apply Z.leb_le in Hlo. rewrite Hlo. simpl. now eexists.
  - replace (400 <=? status_code r) with true by (symmetry; now apply Z.leb_le).
    simpl.
    replace (500 <=? status_code r) with true
      by (symmetry; apply Z.leb_le; apply Z.ltb_ge in H5; exact H5).
    replace (status_code r <? 600) with true by (symmetry; now apply Z.ltb_lt).
    simpl. now eexists.
Qed.

Lemma raise_for_status_pass (r : Response) :
  ~ is_error_status (status_code r) -> raise_for_status r = Ok tt.
Proof.
  unfold is_error_status, raise_for_status. intros Hno.
  destruct (400 <=? status_code r) eqn:H4, (status_code r <? 500) eqn:H5,
           (500 <=? status_code r) eqn:H5', (status_code r <? 600) eqn:H6;
    simpl; try reflexivity; exfalso; apply Hno;
    rewrite ?Z.leb_le, ?Z.ltb_lt, ?Z.leb_gt, ?Z.ltb_ge in *; lia.
Qed.

Lemma set_http_run (w : env) (txt : string) (s : state) (r : Response) :
  import_requests w = None ->
  requests_post w (trace s) (set_url (port (_clipboard s)))
    (PyDict [("text", PyStr txt)]) [("Content-Type", "application/json")] = Ok r ->
  _set_http w txt s
  = (match raise_for_status r with
     | Ok _ => Ok (str_in "success" (lower (text r)))
     | Raise (Exception detail) => Raise (Exception ("HTTP SET failed: " ++ detail))
     | Raise KeyboardInterrupt => Raise KeyboardInterrupt
     end,
     record (EvPost (set_url (port (_clipboard s))) (PyDict [("text", PyStr txt)])
                    [("Content-Type", "application/json")] (Ok r)) s).
Proof.
  intros Himp Hpost.
  unfold _set_http, try_except, import_, requests_post_, bind, self, lift, ret, raise.
  rewrite Himp. simpl. rewrite Hpost.
  destruct (raise_for_status r) as [[]|[detail|]]; reflexivity.
Qed.

(** C4, as stated, fails for a status that is neither 2xx nor an error
    for [raise_for_status]: a 300 response whose body holds the word is
    reported as a success, not as a failure. *)
Lemma set_http_accepts_status_300 :
  let dev := Sample.device (Sample.adb_exits 0 "" "")
                           (Sample.serves 200 "OK" "pong")
                           (Sample.serves 300 "Multiple Choices" "SUCCESS") in
  let s := Sample.start http None in
  requests_post dev (trace s) (set_url 8080) (PyDict [("text", PyStr "hello")])
                [("Content-Type", "application/json")]
  = Ok (Sample.response 300 "Multiple Choices" (set_url 8080) "SUCCESS")
  /\ fst (_set_http dev "hello" s) = Ok true.
Proof. split; reflexivity. Qed.

(** C4, amended.  With [requests] importable, [_set_http] sends one
    [POST /clipboard/set] whose JSON body is the object with the single key
    [text] bound to the text, under a JSON content-type header.  For every
    answer with a 4xx or 5xx status it raises an exception whose message
    starts with [HTTP SET failed: ].  For every answer with any other status
    (2xx, and also 1xx and 3xx, which [raise_for_status] lets through) it
    returns a boolean that is true if and only if the raw body holds the word
    success in any mix of upper and lower case. *)
Theorem set_http_outcome (w : env) (txt : string) (s : state) (r : Response)
    (importable : import_requests w = None)
    (answered :
       requests_post w (trace s) (set_url (port (_clipboard s)))
         (PyDict [("text", PyStr txt)]) [("Content-Type", "application/json")] = Ok r) :
  trace (exec (_set_http w txt) s)
  = (trace s
     ++ [EvPost ("http://localhost:" ++ str_of_int (port (_clipboard s)) ++ "/clipboard/set")
                (PyDict [("text", PyStr txt)])
                [("Content-Type", "application/json")] (Ok r)])%list
  /\ (is_error_status (status_code r) ->
      exists detail,
        fst (_set_http w txt s) = Raise (Exception ("HTTP SET failed: " ++ detail)))
  /\ (~ is_error_status (status_code r) ->
      exists b, fst (_set_http w txt s) = Ok b
                /\ (b = true <-> mentions_success (text r))).
Proof.
  unfold exec. rewrite (set_http_run w txt s r importable answered).
  split; [reflexivity|]. split.
  - intros Herr. destruct (raise_for_status_error r Herr) as [detail ->].
    now exists detail.
  - intros Hok. rewrite (raise_for_status_pass r Hok).
    eexists. split; [reflexivity|]. apply success_check_spec.
Qed.

Lemma set_http_outcome_witness :
  let dev := Sample.device (Sample.adb_exits 0 "" "")
                           (Sample.serves 200 "OK" "pong")
                           (Sample.serves 404 "Not Found" "no such route") in
  let s := Sample.start http None in
  import_requests dev = None
  /\ is_error_status 404
  /\ exists detail,
       fst (_set_http dev "hello" s) = Raise (Exception ("HTTP SET failed: " ++ detail)).
Proof.
  split; [reflexivity|]. split; [unfold is_error_status; lia|].
  apply (set_http_outcome
           (Sample.device (Sample.adb_exits 0 "" "")
                          (Sample.serves 200 "OK" "pong")
                          (Sample.serves 404 "Not Found" "no such route"))
           "hello" (Sample.start http None)
           (Sample.response 404 "Not Found" (set_url 8080) "no such route")
           eq_refl eq_refl).
  unfold is_error_status. simpl. lia.
Defined.

Lemma is_success_false (v : pyval) : v <> PyStr "success" -> is_success v = false.
Proof.
  destruct v; try reflexivity. simpl. intros Hne.
  destruct (String.eqb_spec s "success") as [->|]; [now destruct Hne|reflexivity].
Qed.

Lemma get_http_run (w : env) (s : state) (r : Response) :
  import_requests w = None ->
  requests_get w (trace s) (get_url (port (_clipboard s))) None = Ok r ->
  fst (_get_http w s)
  = match raise_for_status r with
    | Raise (Exception detail) => Raise (Exception ("HTTP GET failed: " ++ detail))
    | Raise KeyboardInterrupt => Raise KeyboardInterrupt
    | Ok _ =>
        match json_loads w (text r) with
        | Raise (Exception detail) => Raise (Exception ("HTTP GET failed: " ++ detail))
        | Raise KeyboardInterrupt => Raise KeyboardInterrupt
        | Ok (PyDict items) =>
            Ok (if is_success (dict_get items "status" PyNone)
                then dict_get items "data" (PyStr "")
                else PyNone)
        | Ok other =>
            Raise (Exception ("HTTP GET failed: '" ++ type_name other
                              ++ "' object has no attribute 'get'"))
        end
    end.
Proof.
  intros Himp Hget.
  unfold _get_http, try_except, import_, requests_get_, bind, self, lift, ret, raise.
  rewrite Himp. simpl. rewrite Hget.
  destruct (raise_for_status r) as [[]|[detail|]]; try reflexivity.
  destruct (json_loads w (text r)) as [v|[detail|]]; try reflexivity.
  destruct v; try reflexivity. simpl.
  destruct (is_success _); reflexivity.
Qed.

(** C5, as stated, fails for a status that is neither 2xx nor an error
    for [raise_for_status]: a 300 response with a success payload yields its
    data, not a failure. *)
Lemma get_http_accepts_status_300 :
  let dev := Sample.device (Sample.adb_exits 0 "" "")
                           (Sample.serves 300 "Multiple Choices"
                                          (Sample.payload "success" "hi"))
                           (fun _ => Sample.refused) in
  let s := Sample.start http None in
  requests_get dev (trace s) (get_url 8080) None
  = Ok (Sample.response 300 "Multiple Choices" (get_url 8080)
                        (Sample.payload "success" "hi"))
  /\ fst (_get_http dev s) = Ok (PyStr "hi").
Proof. split; reflexivity. Qed.

(** C5, amended.  With [requests] importable, for every answer to
    [GET /clipboard/get] with a 4xx or 5xx status [_get_http] raises an
    exception whose message starts with [HTTP GET failed: ].  For every
    answer with any other status (2xx, and also 1xx and 3xx, which
    [raise_for_status] lets through) whose body decodes to a JSON object, it
    returns the object's [data] entry as it is (the empty string included,
    and the empty string when there is no such entry) when the [status]
    entry is the string success, and [None] for any other status. *)
Theorem get_http_outcome (w : env) (s : state) (r : Response)
    (importable : import_requests w = None)
    (answered : requests_get w (trace s) (get_url (port (_clipboard s))) None = Ok r) :
  (is_error_status (status_code r) ->
   exists detail,
     fst (_get_http w s) = Raise (Exception ("HTTP GET failed: " ++ detail)))
  /\ (forall items,
        ~ is_error_status (status_code r) ->
        json_loads w (text r) = Ok (PyDict items) ->
        (dict_get items "status" PyNone = PyStr "success" ->
         fst (_get_http w s) = Ok (dict_get items "data" (PyStr "")))
        /\ (dict_get items "status" PyNone <> PyStr "success" ->
            fst (_get_http w s) = Ok PyNone)).
Proof.
  rewrite (get_http_run w s r importable answered). split.
  - intros Herr. destruct (raise_for_status_error r Herr) as [detail ->].
    now exists detail.
  - intros items Hok Hjson. rewrite (raise_for_status_pass r Hok), Hjson.
    split.
    + intros ->. reflexivity.
    + intros Hne. rewrite (is_success_false _ Hne). reflexivity.
Qed.

Lemma get_http_outcome_witness :
  let dev := Sample.device (Sample.adb_exits 0 "" "")
                           (Sample.serves_after_ping 200 "OK" (Sample.payload "success" ""))
                           (fun _ => Sample.refused) in
  let s := Sample.start http None in
  import_requests dev = None
  /\ ~ is_error_status 200
  /\ json_loads dev (Sample.payload "success" "") = Ok (Sample.decoded "success" "")
  /\ fst (_get_http dev s) = Ok (PyStr "").
Proof.
  assert (H200 : ~ is_error_status 200) by (unfold is_error_status; lia).
  split; [reflexivity|]. split; [exact H200|]. split; [reflexivity|].
  apply (proj2 (get_http_outcome
           (Sample.device (Sample.adb_exits 0 "" "")
                          (Sample.serves_after_ping 200 "OK" (Sample.payload "success" ""))
                          (fun _ => Sample.refused))
           (Sample.start http None)
           (Sample.response 200 "OK" (get_url 8080) (Sample.payload "success" ""))
           eq_refl eq_refl)
          [("status", PyStr "success"); ("data", PyStr "")] H200 eq_refl).
  reflexivity.
Defined.

(** *** The shell adapter *)

Example query_output_lines :
  split_on LF (strip (Sample.row "success" "hi" ++ Sample.row "error" ""))
  = ["Row: 0 result=" ++ Sample.payload "success" "hi";
     "Row: 0 result=" ++ Sample.payload "error" ""].
Proof. reflexivity. Qed.

Example marker_split :
  split1 "result=" "Row: 0 result={}" = ["Row: 0 "; "{}"]
  /\ str_in "result=" "Row: 0 result={}" = true
  /\ str_in "result=" "No result found." = false.
Proof. repeat split. Qed.

(** A marker line that does not decode is a failure, not an empty
    clipboard. *)
Example get_adb_malformed_payload :
  fst (_get_adb (Sample.device (Sample.adb_exits 0 "result=oops" "")
                               (fun _ => Sample.refused) (fun _ => Sample.refused))
                (Sample.start adb None))
  = Raise (Exception "ADB GET failed: Expecting value: line 1 column 1 (char 0)").
Proof. reflexivity. Qed.

Lemma scan_lines_skip (w : env) (before rest : list string) :
  Forall (no_success w) before ->
  scan_lines w (before ++ rest) = scan_lines w rest.
Proof.
  induction 1 as [|line before Hline _ IH]; [reflexivity|].
  simpl. destruct Hline as [Hno|(items & (Hin & js & Hidx & Hjson) & Hst)].
  - now rewrite Hno.
  - rewrite Hin, Hidx, Hjson. simpl. now rewrite Hst.
Qed.


Lemma get_adb_run (w : env) (s : state) (c : CompletedProcess) :
  subprocess_run w (trace s) query_argv = Ok c ->
  fst (_get_adb w s)
  = if negb (returncode c =? 0)
    then Raise (Exception ("ADB GET failed: ADB command failed: " ++ stderr c))
    else match scan_lines w (split_on LF (strip (stdout c))) with
         | Raise (Exception detail) => Raise (Exception ("ADB GET failed: " ++ detail))
         | other => other
         end.
Proof.
  intros Hrun. unfold _get_adb, try_except, bind, run, raise, lift.
  rewrite Hrun. simpl.
  destruct (negb (returncode c =? 0)); simpl; [reflexivity|].
  destruct (scan_lines w _) as [v|[detail|]]; reflexivity.
Qed.

(** The description of the output meets the program's own reading of
    it. *)




















(** *** The command line *)

(** The facade prints nothing. *)
Lemma silent_get (w : env) (s : state) :
  sys_stdout (exec (get w) s) = sys_stdout s
  /\ sys_stderr (exec (get w) s) = sys_stderr s.
Proof.
  assert (H : streams (exec (get w) s) = streams s).
  { apply preserves_get; [reflexivity|]. intros v s0. reflexivity. }
  unfold streams in H. now injection H.
Qed.

Lemma silent_set (w : env) (txt : string) (s : state) :
  sys_stdout (exec (set w txt) s) = sys_stdout s
  /\ sys_stderr (exec (set w txt) s) = sys_stderr s.
Proof.
  assert (H : streams (exec (set w txt) s) = streams s).
  { apply preserves_set; [reflexivity|]. intros v s0. reflexivity. }
  unfold streams in H. now injection H.
Qed.

Section MainProperties.

Variable w : env.
Variable run_basic_tests run_stress_tests : M bool.
Variable run_all_tests : M Z.

Lemma main_get_run (args : Namespace) (s : state) :
  args_action args = act_get ->
  main w run_basic_tests run_stress_tests run_all_tests args s
  = handled
      match get w (entered args s) with
      | (Ok PyNone, s1) => (eprint "(Clipboard is empty)" ;; ret 1) s1
      | (Ok v, s1) => (print w (shown w v) ;; ret 0) s1
      | (Raise e, s1) => (Raise e, s1)
      end.
Proof.
  intros is_get.
  unfold main, bind at 1, set_global at 1, try_main, handled, entered, exec.
  rewrite is_get. unfold get_clipboard, bind at 1. simpl.
  destruct (get w _) as [[v|e] s1]; [|reflexivity].
  destruct v; try reflexivity;
    match goal with
    | |- context [bind ?m ?k s1] => destruct (bind m k s1) as [[?|[?|]] ?]
    end; reflexivity.
Qed.

Lemma main_set_run (args : Namespace) (s : state) (txt : string) :
  args_action args = act_set ->
  args_text args = Some txt ->
  main w run_basic_tests run_stress_tests run_all_tests args s
  = handled
      match set w txt (entered args s) with
      | (Ok true, s1) =>
          (print w ("✓ Clipboard set successfully (" ++ str_of_int (len txt) ++ " chars)") ;;
           ret 0) s1
      | (Ok false, s1) => (eprint "✗ Failed to set clipboard" ;; ret 1) s1
      | (Raise e, s1) => (Raise e, s1)
      end.
Proof.
  intros is_set has_text.
  unfold main, bind at 1, set_global at 1, try_main, handled, entered, exec.
  rewrite is_set, has_text. unfold set_clipboard, bind at 1. simpl.
  destruct (set w txt _) as [[[|]|e] s1]; try reflexivity;
    match goal with
    | |- context [bind ?m ?k s1] => destruct (bind m k s1) as [[?|[?|]] ?]
    end; reflexivity.
Qed.

(** C9.  For the [get] action: when the facade returns [None], [main]
    prints the placeholder [(Clipboard is empty)] to the error stream,
    nothing to standard output, and returns 1; when the facade returns the
    empty string, [main] prints that empty string to standard output,
    nothing to the error stream, and returns 0. *)
Theorem main_get_none_versus_empty (args : Namespace) (s : state)
    (is_get : args_action args = act_get) :
  (fst (get w (entered args s)) = Ok PyNone ->
   fst (main w run_basic_tests run_stress_tests run_all_tests args s) = Ok 1
   /\ sys_stderr (exec (main w run_basic_tests run_stress_tests run_all_tests args) s)
      = (sys_stderr s ++ ["(Clipboard is empty)"])%list
   /\ sys_stdout (exec (main w run_basic_tests run_stress_tests run_all_tests args) s)
      = sys_stdout s)
  /\ (fst (get w (entered args s)) = Ok (PyStr "") ->
      fst (main w run_basic_tests run_stress_tests run_all_tests args s) = Ok 0
      /\ sys_stdout (exec (main w run_basic_tests run_stress_tests run_all_tests args) s)
         = (sys_stdout s ++ [""])%list
      /\ sys_stderr (exec (main w run_basic_tests run_stress_tests run_all_tests args) s)
         = sys_stderr s).
Proof.
  unfold exec at 1 2 3 4. rewrite (main_get_run args s is_get).
  destruct (silent_get w (entered args s)) as [Hout Herr]. unfold exec in Hout, Herr.
  change (sys_stdout (entered args s)) with (sys_stdout s) in Hout.
  change (sys_stderr (entered args s)) with (sys_stderr s) in Herr.
  destruct (get w (entered args s)) as [r s1]. simpl in Hout, Herr |- *.
  split; intros ->; simpl; rewrite Hout, Herr; auto.
Qed.

(** C10, amended.  For the [set] action: with the text argument present
    and empty, [main] prints no usage error and calls the facade's [set]
    with the empty string; when that returns true and standard output can
    take the confirmation line, [main] prints the confirmation with a count
    of 0 characters and returns 0; when standard output cannot take that
    line, the print raises inside [main]'s [try], nothing reaches standard
    output, the encoding error is reported on the error stream and [main]
    returns 1.  With the text argument absent, [main] makes no call to the
    outside, prints the usage error first on the error stream, and
    returns 1. *)
Theorem main_set_empty_text (args : Namespace) (s : state)
    (is_set : args_action args = act_set) :
  (args_text args = Some "" ->
   trace (exec (main w run_basic_tests run_stress_tests run_all_tests args) s)
   = trace (exec (set w "") (entered args s))
   /\ (fst (set w "" (entered args s)) = Ok true ->
       (stdout_rejects w "✓ Clipboard set successfully (0 chars)" = None ->
        fst (main w run_basic_tests run_stress_tests run_all_tests args s) = Ok 0
        /\ sys_stdout (exec (main w run_basic_tests run_stress_tests run_all_tests args) s)
           = (sys_stdout s ++ ["✓ Clipboard set successfully (0 chars)"])%list
        /\ sys_stderr (exec (main w run_basic_tests run_stress_tests run_all_tests args) s)
           = sys_stderr s)
       /\ (forall msg,
             stdout_rejects w "✓ Clipboard set successfully (0 chars)" = Some msg ->
             fst (main w run_basic_tests run_stress_tests run_all_tests args s) = Ok 1
             /\ sys_stdout (exec (main w run_basic_tests run_stress_tests run_all_tests args) s)
                = sys_stdout s
             /\ sys_stderr (exec (main w run_basic_tests run_stress_tests run_all_tests args) s)
                = (sys_stderr s ++ [("Error: " ++ msg)%string])%list)))
  /\ (args_text args = None ->
      fst (main w run_basic_tests run_stress_tests run_all_tests args s) = Ok 1
      /\ trace (exec (main w run_basic_tests run_stress_tests run_all_tests args) s)
         = trace s
      /\ exists more,
           sys_stderr (exec (main w run_basic_tests run_stress_tests run_all_tests args) s)
           = (sys_stderr s ++ "Error: Text argument required for 'set' action" :: more)%list).
Proof.
  split.
  - intros has_text. unfold exec at 1 3 4 5 6.
    rewrite (main_set_run args s "" is_set has_text).
    destruct (silent_set w "" (entered args s)) as [Hout Herr].
    unfold exec in Hout, Herr |- *.
    change (sys_stdout (entered args s)) with (sys_stdout s) in Hout.
    change (sys_stderr (entered args s)) with (sys_stderr s) in Herr.
    destruct (set w "" (entered args s)) as [r s1]. simpl in Hout, Herr |- *.
    split.
    + destruct r as [[|]|[msg|]]; try reflexivity.
      unfold bind, print. simpl.
      destruct (stdout_rejects w _); reflexivity.
    + intros ->. unfold bind, print. simpl. split.
      * intros ->. simpl. rewrite Hout, Herr. auto.
      * intros msg ->. simpl. rewrite Hout, Herr. auto.
  - intros no_text. unfold exec, main, bind at 1, set_global at 1, try_main.
    rewrite is_set, no_text. unfold bind, eprint, print, ret. simpl.
    destruct (is_ascii_text (help_text w)); simpl.
    + split; [reflexivity|]. split; [reflexivity|]. now exists [].
    + destruct (stdout_rejects w (help_text w)) as [msg|]; simpl.
      * split; [reflexivity|]. split; [reflexivity|].
        exists [("Error: " ++ msg)%string]. now rewrite <- app_assoc.
      * split; [reflexivity|]. split; [reflexivity|]. now exists [].
Qed.

End MainProperties.

Lemma main_get_none_versus_empty_witness :
  let dev := Sample.device (Sample.adb_exits 0 (Sample.row "success" "") "")
                           (fun _ => Sample.refused) (fun _ => Sample.refused) in
  let args := Sample.cli act_get None adb in
  let s := Sample.start auto None in
  args_action args = act_get
  /\ fst (get dev (entered args s)) = Ok (PyStr "")
  /\ fst (main dev (ret true) (ret true) (ret 0) args s) = Ok 0
  /\ sys_stdout (exec (main dev (ret true) (ret true) (ret 0) args) s) = [""]
  /\ sys_stderr (exec (main dev (ret true) (ret true) (ret 0) args) s) = [].
Proof.
  split; [reflexivity|]. split; [reflexivity|].
  apply (main_get_none_versus_empty
           (Sample.device (Sample.adb_exits 0 (Sample.row "success" "") "")
                          (fun _ => Sample.refused) (fun _ => Sample.refused))
           (ret true) (ret true) (ret 0)
           (Sample.cli act_get None adb) (Sample.start auto None) eq_refl).
  reflexivity.
Defined.

(** C10, as stated, fails behind a standard output that takes ASCII
    only: the facade sets the empty text and returns true, the print of the
    confirmation raises, and [main] returns 1 with nothing on standard
    output. *)
Lemma main_set_empty_text_ascii_stdout :
  let complaint :=
    "'ascii' codec can't encode character '\u2713' in position 0: ordinal not in range(128)" in
  let dev := Bench.ascii_stdout complaint
               (Sample.device (Sample.adb_exits 0 "" "")
                              (fun _ => Sample.refused) (fun _ => Sample.refused)) in
  let args := Sample.cli act_set (Some "") adb in
  let s := Sample.start auto None in
  args_text args = Some ""
  /\ fst (set dev "" (entered args s)) = Ok true
  /\ fst (main dev (ret true) (ret true) (ret 0) args s) = Ok 1
  /\ sys_stdout (exec (main dev (ret true) (ret true) (ret 0) args) s) = []
  /\ sys_stderr (exec (main dev (ret true) (ret true) (ret 0) args) s)
     = [("Error: " ++ complaint)%string].
Proof. repeat split. Qed.

Lemma main_set_empty_text_witness :
  let dev := Sample.device (Sample.adb_exits 0 "" "")
                           (fun _ => Sample.refused) (fun _ => Sample.refused) in
  let args := Sample.cli act_set (Some "") adb in
  let s := Sample.start auto None in
  args_action args = act_set
  /\ args_text args = Some ""
  /\ fst (set dev "" (entered args s)) = Ok true
  /\ stdout_rejects dev "✓ Clipboard set successfully (0 chars)" = None
  /\ fst (main dev (ret true) (ret true) (ret 0) args s) = Ok 0
  /\ sys_stdout (exec (main dev (ret true) (ret true) (ret 0) args) s)
     = ["✓ Clipboard set successfully (0 chars)"]
  /\ sys_stderr (exec (main dev (ret true) (ret true) (ret 0) args) s) = [].
Proof.
  split; [reflexivity|]. split; [reflexivity|]. split; [reflexivity|].
  split; [reflexivity|].
  apply (main_set_empty_text
           (Sample.device (Sample.adb_exits 0 "" "")
                          (fun _ => Sample.refused) (fun _ => Sample.refused))
           (ret true) (ret true) (ret 0)
           (Sample.cli act_set (Some "") adb) (Sample.start auto None) eq_refl);
    reflexivity.
Defined.

(** ** Further properties *)

(** *** More on the escaping of [_set_adb] *)

Lemma escaped_cons (c : ascii) (txt : string) :
  escaped (String c txt) = escape_char c ++ escaped txt.
Proof.
  unfold escaped, escape_char. simpl.
  destruct (Ascii.eqb c "\") eqn:Hb; simpl.
  - apply Ascii.eqb_eq in Hb. subst c. reflexivity.
  - destruct (Ascii.eqb c "'"); reflexivity.
Qed.

Lemma escaped_injective (a b : string) : escaped a = escaped b -> a = b.
Proof.
  revert b. induction a as [|c a IH]; intros [|d b] H.
  - reflexivity.
  - rewrite escaped_cons in H. unfold escape_char in H.
    destruct (Ascii.eqb d "\"); [discriminate|].
    destruct (Ascii.eqb d "'"); discriminate.
  - rewrite escaped_cons in H. unfold escape_char in H.
    destruct (Ascii.eqb c "\"); [discriminate|].
    destruct (Ascii.eqb c "'"); discriminate.
  - rewrite !escaped_cons in H. unfold escape_char in H.
    destruct (Ascii.eqb_spec c "\") as [->|Hcb];
      destruct (Ascii.eqb_spec d "\") as [->|Hdb]; simpl in H.
    + injection H as H. f_equal. now apply IH.
    + destruct (Ascii.eqb_spec d "'") as [->|Hdq]; simpl in H;
        [discriminate|]. injection H as Hd _. now destruct Hdb.
    + destruct (Ascii.eqb_spec c "'") as [->|Hcq]; simpl in H;
        [discriminate|]. injection H as Hc _. now destruct Hcb.
    + destruct (Ascii.eqb_spec c "'") as [->|Hcq];
        destruct (Ascii.eqb_spec d "'") as [->|Hdq]; simpl in H.
      * injection H as H. f_equal. now apply IH.
      * injection H as Hd _. now destruct Hdq.
      * injection H as Hc _. now destruct Hcq.
      * injection H as -> H. f_equal. now apply IH.
Qed.

(** X1.  The command [_set_adb] builds determines the text: two texts
    give the same [content insert] command only if they are the same
    text. *)
Theorem insert_cmd_determines_text (a b : string) :
  insert_cmd (replace "'" "'\''" (replace "\" "\\" a))
  = insert_cmd (replace "'" "'\''" (replace "\" "\\" b))
  <-> a = b.
Proof.
  split; [|now intros ->].
  unfold insert_cmd. intros H.
  apply string_app_inv_head in H. apply string_app_inv_tail in H.
  now apply escaped_injective.
Qed.

Lemma escaped_length (txt : string) :
  (String.length txt <= String.length (escaped txt))%nat.
Proof.
  induction txt as [|c txt IH]; [apply le_n|].
  rewrite escaped_cons, string_app_length. unfold escape_char.
  destruct (Ascii.eqb c "\"); [simpl; lia|].
  destruct (Ascii.eqb c "'"); simpl; lia.
Qed.

(** X2.  The escaping leaves a text as it is exactly when the text has no
    backslash and no single quote. *)
Theorem escaped_identity_iff_plain (txt : string) :
  replace "'" "'\''" (replace "\" "\\" txt) = txt
  <-> forallb is_plain (list_ascii_of_string txt) = true.
Proof.
  change (replace "'" "'\''" (replace "\" "\\" txt)) with (escaped txt).
  induction txt as [|c txt IH]; [simpl; tauto|].
  rewrite escaped_cons. simpl. unfold escape_char, is_plain.
  pose proof (escaped_length txt) as Hlen.
  destruct (Ascii.eqb c "\") eqn:Hb; simpl.
  - split; [|discriminate]. intros H. injection H as _ H.
    apply (f_equal String.length) in H. simpl in H. lia.
  - destruct (Ascii.eqb c "'") eqn:Hq; simpl.
    + split; [|discriminate]. intros H. injection H as _ H.
      apply (f_equal String.length) in H. simpl in H. lia.
    + rewrite <- IH. split; [now intros [=]|now intros ->].
Qed.

(** X3.  [_set_adb] reports by the exit code alone: when the command
    completes, the result is true exactly for exit code 0, whatever was
    printed; when running it raises an exception, that is raised again as
    [ADB SET failed: ...]; an interrupt passes unchanged. *)
Theorem set_adb_outcome (w : env) (txt : string) (s : state) :
  fst (_set_adb w txt s)
  = match subprocess_run w (trace s)
            ["adb"; "shell";
             insert_cmd (replace "'" "'\''" (replace "\" "\\" txt))] with
    | Ok c => Ok (returncode c =? 0)
    | Raise (Exception msg) => Raise (Exception ("ADB SET failed: " ++ msg))
    | Raise KeyboardInterrupt => Raise KeyboardInterrupt
    end.
Proof.
  unfold _set_adb, try_except, bind, run, ret, raise.
  destruct (subprocess_run w (trace s) _) as [c|[msg|]]; reflexivity.
Qed.

(** *** More on the shell adapter's [get] *)

Lemma lstrip_suffix (s : string) : exists before, s = before ++ lstrip s.
Proof.
  induction s as [|c s [before IH]]; [now exists EmptyString|].
  simpl. destruct (is_space c).
  - exists (String c before). simpl. now rewrite <- IH.
  - now exists EmptyString.
Qed.

Lemma rstrip_prefix (s : string) : exists after, s = rstrip s ++ after.
Proof.
  induction s as [|c s [after IH]]; [now exists EmptyString|].
  simpl. destruct (rstrip s) as [|d r] eqn:Hr.
  - simpl in IH. destruct (is_space c).
    + now exists (String c s).
    + exists s. reflexivity.
  - exists after. simpl. now rewrite IH.
Qed.

Lemma split_on_head (sep : ascii) (s h : string) (t : list string) :
  split_on sep s = h :: t -> exists after, s = h ++ after.
Proof.
  revert h t. induction s as [|c s IH]; intros h t H; simpl in H.
  - injection H as <- _. now exists EmptyString.
  - destruct (Ascii.eqb c sep).
    + injection H as <- _. now exists (String c s).
    + destruct (split_on sep s) as [|h' t'] eqn:Hs.
      * injection H as <- _. exists s. reflexivity.
      * injection H as <- _. destruct (IH h' t' eq_refl) as [after ->].
        now exists after.
Qed.

Lemma split_on_substring (sep : ascii) (s line : string) :
  In line (split_on sep s) -> exists before after, s = before ++ line ++ after.
Proof.
  revert line. induction s as [|c s IH]; intros line H; simpl in H.
  - destruct H as [<-|[]]. now exists EmptyString, EmptyString.
  - destruct (Ascii.eqb c sep).
    + destruct H as [<-|H].
      * now exists EmptyString, (String c s).
      * destruct (IH line H) as (before & after & ->).
        now exists (String c before), after.
    + destruct (split_on sep s) as [|h t] eqn:Hs.
      * destruct H as [<-|[]]. now exists EmptyString, s.
      * destruct H as [<-|H].
        -- destruct (split_on_head sep s h t Hs) as [after ->].
           now exists EmptyString, after.
        -- destruct (IH line (or_intror H)) as (before & after & ->).
           now exists (String c before), after.
Qed.

Lemma str_in_substring (pat before s after : string) :
  str_in pat s = true -> str_in pat (before ++ s ++ after) = true.
Proof.
  rewrite !str_in_spec. intros (b & a & ->).
  exists (before ++ b), (a ++ after). now rewrite !string_app_assoc.
Qed.

Lemma lines_without_marker (w : env) (out : string) :
  str_in "result=" out = false ->
  Forall (no_success w) (split_on LF (strip out)).
Proof.
  intros Hno. apply Forall_forall. intros line Hin. left.
  destruct (str_in "result=" line) eqn:Hline; [|reflexivity].
  destruct (split_on_substring _ _ _ Hin) as (b1 & a1 & Hstrip).
  unfold strip in Hstrip.
  destruct (rstrip_prefix (lstrip out)) as [a2 Hr].
  destruct (lstrip_suffix out) as [b2 Hl].
  assert (Hout : out = (b2 ++ b1) ++ line ++ (a1 ++ a2)).
  { rewrite Hl at 1. rewrite Hr, Hstrip. now rewrite !string_app_assoc. }
  rewrite Hout in Hno.
  now rewrite (str_in_substring _ _ _ _ Hline) in Hno.
Qed.

(** X4.  When the query exits with code 0 and its output nowhere holds
    [result=] (the empty output included), [_get_adb] returns [None]. *)
Theorem get_adb_without_marker (w : env) (s : state) (c : CompletedProcess)
    (ran : subprocess_run w (trace s) query_argv = Ok c)
    (exit_0 : returncode c = 0)
    (unmarked : str_in "result=" (stdout c) = false) :
  fst (_get_adb w s) = Ok PyNone.
Proof.
  rewrite (get_adb_run w s c ran), exit_0. simpl.
  rewrite <- (app_nil_r (split_on LF _)).
  now rewrite (scan_lines_skip w _ [] (lines_without_marker w _ unmarked)).
Qed.

Lemma get_adb_without_marker_witness :
  let dev := Sample.device (Sample.adb_exits 0 "No result found." "")
                           (fun _ => Sample.refused) (fun _ => Sample.refused) in
  let s := Sample.start adb None in
  subprocess_run dev (trace s) query_argv
  = Ok (Sample.completed 0 "No result found." "")
  /\ str_in "result=" "No result found." = false
  /\ fst (_get_adb dev s) = Ok PyNone.
Proof.
  split; [reflexivity|]. split; [reflexivity|].
  exact (get_adb_without_marker
           (Sample.device (Sample.adb_exits 0 "No result found." "")
                          (fun _ => Sample.refused) (fun _ => Sample.refused))
           (Sample.start adb None) (Sample.completed 0 "No result found." "")
           eq_refl eq_refl eq_refl).
Defined.

(** X5.  When the query exits with code 0 and the first line of its
    output that does not yield nothing carries [result=] followed by a text
    that is not a JSON object, [_get_adb] fails instead of returning [None]:
    with [ADB GET failed: ] and the decoder's message when the text does not
    decode, and with [ADB GET failed: ] and the attribute error when it
    decodes to a value that is not an object. *)
Theorem get_adb_malformed (w : env) (s : state) (c : CompletedProcess)
    (before after : list string) (line json_str : string)
    (ran : subprocess_run w (trace s) query_argv = Ok c)
    (exit_0 : returncode c = 0)
    (lines : split_on LF (strip (stdout c)) = (before ++ line :: after)%list)
    (quiet : Forall (no_success w) before)
    (marked : str_in "result=" line = true)
    (payload : index1 (split1 "result=" line) = Ok json_str) :
  (forall msg,
     json_loads w json_str = Raise (Exception msg) ->
     fst (_get_adb w s) = Raise (Exception ("ADB GET failed: " ++ msg)))
  /\ (forall v,
        json_loads w json_str = Ok v ->
        (forall items, v <> PyDict items) ->
        fst (_get_adb w s)
        = Raise (Exception ("ADB GET failed: '" ++ type_name v
                            ++ "' object has no attribute 'get'"))).
Proof.
  rewrite (get_adb_run w s c ran), exit_0, lines. simpl negb. cbv iota.
  rewrite (scan_lines_skip w before _ quiet). simpl. rewrite marked, payload.
  split.
  - intros msg ->. reflexivity.
  - intros v -> Hv. destruct v; try reflexivity. now destruct (Hv items).
Qed.

Lemma get_adb_malformed_witness :
  let dev := Sample.device (Sample.adb_exits 0 "Row: 0 result=[]" "")
                           (fun _ => Sample.refused) (fun _ => Sample.refused) in
  let s := Sample.start adb None in
  subprocess_run dev (trace s) query_argv
  = Ok (Sample.completed 0 "Row: 0 result=[]" "")
  /\ split_on LF (strip "Row: 0 result=[]") = ["Row: 0 result=[]"]
  /\ index1 (split1 "result=" "Row: 0 result=[]") = Ok "[]"
  /\ json_loads dev "[]" = Ok (PyList [])
  /\ fst (_get_adb dev s)
     = Raise (Exception "ADB GET failed: 'list' object has no attribute 'get'").
Proof.
  split; [reflexivity|]. split; [reflexivity|]. split; [reflexivity|].
  split; [reflexivity|].
  apply (proj2 (get_adb_malformed
           (Sample.device (Sample.adb_exits 0 "Row: 0 result=[]" "")
                          (fun _ => Sample.refused) (fun _ => Sample.refused))
           (Sample.start adb None) (Sample.completed 0 "Row: 0 result=[]" "")
           [] [] "Row: 0 result=[]" "[]"
           eq_refl eq_refl eq_refl (Forall_nil _) eq_refl eq_refl)
          (PyList []) eq_refl).
  intros items. discriminate.
Defined.

(** *** More on the HTTP adapter *)

Lemma dict_get_lacks (items : list (string * pyval)) (key : string) (default : pyval) :
  lacks items key -> dict_get items key default = default.
Proof.
  unfold lacks. induction items as [|[k v] items IH]; intros Hno; [reflexivity|].
  simpl. destruct (String.eqb_spec k key) as [->|_].
  - destruct (Hno v). now left.
  - apply IH. intros v' Hin. apply (Hno v'). now right.
Qed.

(** X6.  With [requests] importable and an answer that
    [raise_for_status] lets through, a body that is not a JSON object makes
    [_get_http] fail instead of returning [None]: with [HTTP GET failed: ]
    and the decoder's message when the body does not decode, and with
    [HTTP GET failed: ] and the attribute error when it decodes to a value
    that is not an object. *)
Theorem get_http_malformed (w : env) (s : state) (r : Response)
    (importable : import_requests w = None)
    (answered : requests_get w (trace s) (get_url (port (_clipboard s))) None = Ok r)
    (passes : ~ is_error_status (status_code r)) :
  (forall msg,
     json_loads w (text r) = Raise (Exception msg) ->
     fst (_get_http w s) = Raise (Exception ("HTTP GET failed: " ++ msg)))
  /\ (forall v,
        json_loads w (text r) = Ok v ->
        (forall items, v <> PyDict items) ->
        fst (_get_http w s)
        = Raise (Exception ("HTTP GET failed: '" ++ type_name v
                            ++ "' object has no attribute 'get'"))).
Proof.
  rewrite (get_http_run w s r importable answered),
    (raise_for_status_pass r passes).
  split.
  - intros msg ->. reflexivity.
  - intros v -> Hv. destruct v; try reflexivity. now destruct (Hv items).
Qed.

Lemma get_http_malformed_witness :
  let dev := Sample.device (Sample.adb_exits 0 "" "")
                           (Sample.serves 200 "OK" "<html>") (fun _ => Sample.refused) in
  let s := Sample.start http None in
  import_requests dev = None
  /\ ~ is_error_status 200
  /\ json_loads dev "<html>"
     = Raise (Exception "Expecting value: line 1 column 1 (char 0)")
  /\ fst (_get_http dev s)
     = Raise (Exception "HTTP GET failed: Expecting value: line 1 column 1 (char 0)").
Proof.
  assert (H200 : ~ is_error_status 200) by (unfold is_error_status; lia).
  split; [reflexivity|]. split; [exact H200|]. split; [reflexivity|].
  apply (proj1 (get_http_malformed
           (Sample.device (Sample.adb_exits 0 "" "")
                          (Sample.serves 200 "OK" "<html>") (fun _ => Sample.refused))
           (Sample.start http None)
           (Sample.response 200 "OK" (get_url 8080) "<html>")
           eq_refl eq_refl H200)).
  reflexivity.
Defined.

(** X7.  With [requests] importable and an answer that
    [raise_for_status] lets through, whose body decodes to a JSON object:
    an object without a [status] entry gives [None]; an object whose
    [status] is success and which has no [data] entry gives the empty
    string, not [None]. *)
Theorem get_http_missing_keys (w : env) (s : state) (r : Response)
    (items : list (string * pyval))
    (importable : import_requests w = None)
    (answered : requests_get w (trace s) (get_url (port (_clipboard s))) None = Ok r)
    (passes : ~ is_error_status (status_code r))
    (decoded : json_loads w (text r) = Ok (PyDict items)) :
  (lacks items "status" -> fst (_get_http w s) = Ok PyNone)
  /\ (dict_get items "status" PyNone = PyStr "success" ->
      lacks items "data" ->
      fst (_get_http w s) = Ok (PyStr "")).
Proof.
  rewrite (get_http_run w s r importable answered),
    (raise_for_status_pass r passes), decoded.
  split.
  - intros Hno. now rewrite (dict_get_lacks _ _ _ Hno).
  - intros -> Hno. simpl. now rewrite (dict_get_lacks _ _ _ Hno).
Qed.

(** X8.  A transport failure of the HTTP adapter is raised again under the
    method's name.  When [import requests] raises an exception, [_get_http]
    and [_set_http] raise [HTTP GET failed: ...] and [HTTP SET failed: ...]
    without sending a request; when the request itself raises an exception,
    they raise it under the same prefix; an interrupt of the request passes
    unchanged. *)
Theorem http_transport_failure (w : env) (txt : string) (s : state) :
  (forall msg,
     import_requests w = Some (Exception msg) ->
     _get_http w s = (Raise (Exception ("HTTP GET failed: " ++ msg)), s)
     /\ _set_http w txt s = (Raise (Exception ("HTTP SET failed: " ++ msg)), s))
  /\ (import_requests w = None ->
      (forall msg,
         requests_get w (trace s) (get_url (port (_clipboard s))) None
         = Raise (Exception msg) ->
         fst (_get_http w s) = Raise (Exception ("HTTP GET failed: " ++ msg)))
      /\ (forall msg,
            requests_post w (trace s) (set_url (port (_clipboard s)))
              (PyDict [("text", PyStr txt)]) [("Content-Type", "application/json")]
            = Raise (Exception msg) ->
            fst (_set_http w txt s) = Raise (Exception ("HTTP SET failed: " ++ msg)))
      /\ (requests_get w (trace s) (get_url (port (_clipboard s))) None
          = Raise KeyboardInterrupt ->
          fst (_get_http w s) = Raise KeyboardInterrupt)
      /\ (requests_post w (trace s) (set_url (port (_clipboard s)))
            (PyDict [("text", PyStr txt)]) [("Content-Type", "application/json")]
          = Raise KeyboardInterrupt ->
          fst (_set_http w txt s) = Raise KeyboardInterrupt)).
Proof.
  unfold _get_http, _set_http, try_except, import_, requests_get_, requests_post_,
    bind, self, lift, ret, raise.
  split.
  - intros msg ->. split; reflexivity.
  - intros ->. simpl. repeat split; intros; rewrite H; reflexivity.
Qed.

Lemma http_transport_failure_witness :
  let dev := Sample.device (Sample.adb_exits 0 "" "")
                           (fun _ => Sample.refused) (fun _ => Sample.refused) in
  let s := Sample.start http None in
  import_requests dev = None
  /\ requests_get dev (trace s) (get_url 8080) None
     = Raise (Exception "Connection refused")
  /\ fst (_get_http dev s) = Raise (Exception "HTTP GET failed: Connection refused").
Proof.
  split; [reflexivity|]. split; [reflexivity|].
  apply (proj2 (http_transport_failure
           (Sample.device (Sample.adb_exits 0 "" "")
                          (fun _ => Sample.refused) (fun _ => Sample.refused))
           "x" (Sample.start http None)) eq_refl).
  reflexivity.
Defined.

Lemma get_http_missing_keys_witness :
  let dev := Bench.decoding Bench.loads
               (Sample.device (Sample.adb_exits 0 "" "")
                              (Sample.serves 200 "OK" (Bench.status_only "success"))
                              (fun _ => Sample.refused)) in
  let s := Sample.start http None in
  import_requests dev = None
  /\ ~ is_error_status 200
  /\ json_loads dev (Bench.status_only "success")
     = Ok (PyDict [("status", PyStr "success")])
  /\ lacks [("status", PyStr "success")] "data"
  /\ fst (_get_http dev s) = Ok (PyStr "").
Proof.
  assert (H200 : ~ is_error_status 200) by (unfold is_error_status; lia).
  assert (Hno : lacks [("status", PyStr "success")] "data").
  { intros v [H|[]]. discriminate. }
  split; [reflexivity|]. split; [exact H200|]. split; [reflexivity|].
  split; [exact Hno|].
  apply (proj2 (get_http_missing_keys
           (Bench.decoding Bench.loads
              (Sample.device (Sample.adb_exits 0 "" "")
                             (Sample.serves 200 "OK" (Bench.status_only "success"))
                             (fun _ => Sample.refused)))
           (Sample.start http None)
           (Sample.response 200 "OK" (get_url 8080) (Bench.status_only "success"))
           [("status", PyStr "success")] eq_refl eq_refl H200 eq_refl)
          eq_refl Hno).
Defined.

(** *** More on the facade *)

Lemma get_http_calls (w : env) (s : state) :
  exists evs,
    trace (exec (_get_http w) s) = (trace s ++ evs)%list
    /\ (List.length evs <= 1)%nat
    /\ forallb is_http_call evs = true.
Proof.
  unfold exec, _get_http, try_except, import_, requests_get_, bind, self, lift,
    ret, raise.
  destruct (import_requests w) as [[msg|]|]; simpl.
  - exists []. rewrite app_nil_r. auto.
  - exists []. rewrite app_nil_r. auto.
  - exists [EvGet (get_url (port (_clipboard s))) None
                  (requests_get w (trace s) (get_url (port (_clipboard s))) None)].
    split; [|split; [apply le_n|reflexivity]].
    destruct (requests_get w _ _ _) as [r|[msg|]]; try reflexivity.
    destruct (raise_for_status r) as [[]|[msg|]]; try reflexivity.
    destruct (json_loads w (text r)) as [v|[msg|]]; try reflexivity.
    destruct v as [| | | | |items|items]; try reflexivity. simpl.
    destruct (is_success (dict_get items "status" PyNone)); reflexivity.
Qed.

Lemma set_http_calls (w : env) (txt : string) (s : state) :
  exists evs,
    trace (exec (_set_http w txt) s) = (trace s ++ evs)%list
    /\ (List.length evs <= 1)%nat
    /\ forallb is_http_call evs = true.
Proof.
  unfold exec, _set_http, try_except, import_, requests_post_, bind, self, lift,
    ret, raise.
  destruct (import_requests w) as [[msg|]|]; simpl.
  - exists []. rewrite app_nil_r. auto.
  - exists []. rewrite app_nil_r. auto.
  - exists [EvPost (set_url (port (_clipboard s))) (PyDict [("text", PyStr txt)])
                   [("Content-Type", "application/json")]
                   (requests_post w (trace s) (set_url (port (_clipboard s)))
                      (PyDict [("text", PyStr txt)])
                      [("Content-Type", "application/json")])].
    split; [|split; [apply le_n|reflexivity]].
    destruct (requests_post w _ _ _ _) as [r|[msg|]]; try reflexivity.
    destruct (raise_for_status r) as [[]|[msg|]]; reflexivity.
Qed.

Lemma facade_http_mode (w : env) (s : state) (txt : string) :
  method (_clipboard s) = http ->
  get w s = _get_http w s /\ set w txt s = _set_http w txt s.
Proof.
  intros Hm. unfold get, set, wants_http, bind, self. rewrite Hm.
  split; reflexivity.
Qed.

(** X9.  In [http] mode the facade never probes and never runs [adb]:
    [get] and [set] leave the instance, its flag included, as it was, and
    each adds at most one call to the trace, which is an HTTP call. *)
Theorem http_mode_never_runs_adb (w : env) (s : state) (txt : string)
    (mode : method (_clipboard s) = http) :
  _clipboard (exec (get w) s) = _clipboard s
  /\ _clipboard (exec (set w txt) s) = _clipboard s
  /\ (exists evs, trace (exec (get w) s) = (trace s ++ evs)%list
                  /\ (List.length evs <= 1)%nat
                  /\ forallb is_http_call evs = true)
  /\ (exists evs, trace (exec (set w txt) s) = (trace s ++ evs)%list
                  /\ (List.length evs <= 1)%nat
                  /\ forallb is_http_call evs = true).
Proof.
  destruct (facade_http_mode w s txt mode) as [Hget Hset].
  unfold exec. rewrite Hget, Hset.
  split; [apply (preserves_get_http _clipboard); reflexivity|].
  split; [apply (preserves_set_http _clipboard); reflexivity|].
  split; [apply get_http_calls|apply set_http_calls].
Qed.

Lemma http_mode_never_runs_adb_witness :
  let dev := Sample.device Sample.no_adb
                           (Sample.serves 200 "OK" (Sample.payload "success" "hi"))
                           (Sample.serves 200 "OK" "success") in
  let s := Sample.start http None in
  method (_clipboard s) = http
  /\ _clipboard (exec (get dev) s) = _clipboard s
  /\ _clipboard (exec (set dev "x") s) = _clipboard s
  /\ (exists evs, trace (exec (get dev) s) = (trace s ++ evs)%list
                  /\ (List.length evs <= 1)%nat
                  /\ forallb is_http_call evs = true)
  /\ (exists evs, trace (exec (set dev "x") s) = (trace s ++ evs)%list
                  /\ (List.length evs <= 1)%nat
                  /\ forallb is_http_call evs = true).
Proof.
  split; [reflexivity|].
  exact (http_mode_never_runs_adb
           (Sample.device Sample.no_adb
                          (Sample.serves 200 "OK" (Sample.payload "success" "hi"))
                          (Sample.serves 200 "OK" "success"))
           (Sample.start http None) "x" eq_refl).
Defined.

Lemma probe_outcome (w : env) (s : state) :
  exists b evs s',
    _is_http_available w s = (Ok b, s')
    /\ trace s' = (trace s ++ evs)%list
    /\ (List.length evs <= 2)%nat
    /\ (cache s <> None -> evs = [])
    /\ cache s' = Some b.
Proof.
  destruct (cache s) as [b|] eqn:Hc.
  - exists b, [], s. rewrite (probe_cached w s b Hc), app_nil_r.
    repeat split; auto.
  - rewrite (probe_fresh w s Hc).
    destruct (import_requests w).
    { eexists _, [], _. split; [reflexivity|]. simpl.
      repeat split; auto; try lia. }
    destruct (subprocess_run w (trace s) _).
    2:{ eexists _, [_], _. split; [reflexivity|]. simpl.
        repeat split; auto; try lia. intros H. now destruct H. }
    destruct (requests_get w _ _ _);
      (eexists _, [_; _], _; split; [reflexivity|]; simpl;
       repeat split; auto; try lia; intros H; now destruct H).
Qed.

Lemma facade_auto_mode (w : env) (s s' : state) (b : bool) (txt : string) :
  method (_clipboard s) = auto ->
  _is_http_available w s = (Ok b, s') ->
  get w s = (if b then _get_http w s' else _get_adb w s')
  /\ set w txt s = (if b then _set_http w txt s' else _set_adb w txt s').
Proof.
  intros Hm Hp. unfold get, set, wants_http, bind, self. rewrite Hm, Hp.
  destruct b; split; reflexivity.
Qed.

Lemma adapter_get_calls (w : env) (b : bool) (s : state) :
  exists evs,
    trace (snd ((if b then _get_http w else _get_adb w) s)) = (trace s ++ evs)%list
    /\ (List.length evs <= 1)%nat
    /\ _clipboard (snd ((if b then _get_http w else _get_adb w) s)) = _clipboard s.
Proof.
  destruct b.
  - destruct (get_http_calls w s) as (evs & Ht & Hn & _). exists evs.
    repeat split; auto. apply (preserves_get_http _clipboard). reflexivity.
  - eexists [_]. split; [apply get_adb_trace|]. split; [apply le_n|].
    apply (preserves_get_adb _clipboard). reflexivity.
Qed.

Lemma adapter_set_calls (w : env) (b : bool) (txt : string) (s : state) :
  exists evs,
    trace (snd ((if b then _set_http w txt else _set_adb w txt) s))
    = (trace s ++ evs)%list
    /\ (List.length evs <= 1)%nat
    /\ _clipboard (snd ((if b then _set_http w txt else _set_adb w txt) s))
       = _clipboard s.
Proof.
  destruct b.
  - destruct (set_http_calls w txt s) as (evs & Ht & Hn & _). exists evs.
    repeat split; auto. apply (preserves_set_http _clipboard). reflexivity.
  - destruct (set_adb_trace w txt s) as (cmd & Ht & _).
    eexists [_]. split; [exact Ht|]. split; [apply le_n|].
    apply (preserves_set_adb _clipboard). reflexivity.
Qed.

(** X10.  In [auto] mode a call of [get] or [set] makes at most three
    calls to the outside (port forward, ping, and the adapter's own), and at
    most one when the flag is already filled; after the call the flag is
    filled, so every later call on the instance makes at most one. *)
Theorem auto_mode_call_budget (w : env) (s : state) (txt : string)
    (mode : method (_clipboard s) = auto) :
  (exists evs,
     trace (exec (get w) s) = (trace s ++ evs)%list
     /\ (List.length evs <= 3)%nat
     /\ (cache s <> None -> (List.length evs <= 1)%nat)
     /\ cache (exec (get w) s) <> None)
  /\ (exists evs,
        trace (exec (set w txt) s) = (trace s ++ evs)%list
        /\ (List.length evs <= 3)%nat
        /\ (cache s <> None -> (List.length evs <= 1)%nat)
        /\ cache (exec (set w txt) s) <> None).
Proof.
  destruct (probe_outcome w s) as (b & evs & s' & Hp & Ht & Hn & Hc & Hb).
  destruct (facade_auto_mode w s s' b txt mode Hp) as [Hget Hset].
  unfold exec. rewrite Hget, Hset. split.
  - destruct (adapter_get_calls w b s') as (evs' & Ht' & Hn' & Hk).
    exists (evs ++ evs')%list.
    replace ((if b then _get_http w s' else _get_adb w s'))
      with ((if b then _get_http w else _get_adb w) s') by now destruct b.
    rewrite Ht', Ht, <- app_assoc, length_app. unfold cache. rewrite Hk.
    repeat split; try lia.
    + intros H. rewrite (Hc H). simpl. lia.
    + unfold cache in Hb. rewrite Hb. discriminate.
  - destruct (adapter_set_calls w b txt s') as (evs' & Ht' & Hn' & Hk).
    exists (evs ++ evs')%list.
    replace ((if b then _set_http w txt s' else _set_adb w txt s'))
      with ((if b then _set_http w txt else _set_adb w txt) s') by now destruct b.
    rewrite Ht', Ht, <- app_assoc, length_app. unfold cache. rewrite Hk.
    repeat split; try lia.
    + intros H. rewrite (Hc H). simpl. lia.
    + unfold cache in Hb. rewrite Hb. discriminate.
Qed.

Lemma auto_mode_call_budget_witness :
  let dev := Sample.device (Sample.adb_exits 0 (Sample.row "success" "hi") "")
                           (fun _ => Sample.refused) (fun _ => Sample.refused) in
  let s := Sample.start auto None in
  method (_clipboard s) = auto
  /\ exists evs,
       trace (exec (get dev) s) = (trace s ++ evs)%list
       /\ (List.length evs <= 3)%nat
       /\ (cache s <> None -> (List.length evs <= 1)%nat)
       /\ cache (exec (get dev) s) <> None.
Proof.
  split; [reflexivity|].
  exact (proj1 (auto_mode_call_budget
           (Sample.device (Sample.adb_exits 0 (Sample.row "success" "hi") "")
                          (fun _ => Sample.refused) (fun _ => Sample.refused))
           (Sample.start auto None) "x" eq_refl)).
Defined.

(** *** Reasoning about composed programs *)

Lemma yields_ret {A} (P : A -> Prop) (a : A) : P a -> yields P (ret a).
Proof. intros H s a' [= <-]. exact H. Qed.

Lemma yields_bind_with {A B} (P1 : A -> Prop) (P : B -> Prop) (m : M A) (k : A -> M B) :
  yields P1 m -> (forall a, P1 a -> yields P (k a)) -> yields P (bind m k).
Proof.
  intros Hm Hk s b. unfold bind. specialize (Hm s).
  destruct (m s) as [[a|e] s1]; simpl in *; [|discriminate].
  apply (Hk a (Hm a eq_refl) s1).
Qed.

Lemma yields_bind {A B} (P : B -> Prop) (m : M A) (k : A -> M B) :
  (forall a, yields P (k a)) -> yields P (bind m k).
Proof.
  intros Hk. apply (yields_bind_with (fun _ => True)); [easy|auto].
Qed.

Lemma yields_try_except {A} (P : A -> Prop) (body : M A) (handler : string -> M A) :
  yields P body -> (forall msg, yields P (handler msg)) ->
  yields P (try_except body handler).
Proof.
  intros Hb Hh s a. unfold try_except. specialize (Hb s).
  destruct (body s) as [[a'|[msg|]] s1]; simpl in *.
  - apply Hb.
  - apply (Hh msg s1).
  - discriminate.
Qed.

Lemma yields_if {A} (P : A -> Prop) (c : bool) (m1 m2 : M A) :
  yields P m1 -> yields P m2 -> yields P (if c then m1 else m2).
Proof. destruct c; auto. Qed.

Lemma contains_ret {A} (a : A) : contains_errors (ret a).
Proof. intros s msg. discriminate. Qed.

Lemma print_run (w : env) (line : string) (s : state) :
  print w line s
  = match stdout_answer w line with
    | None => (Ok tt, wrote line s)
    | Some complaint => (Raise (Exception complaint), s)
    end.
Proof.
  unfold print, stdout_answer. destruct (is_ascii_text line); [reflexivity|].
  destruct (stdout_rejects w line); reflexivity.
Qed.

Lemma print_taken (w : env) (line : string) (s : state) :
  takes_all w -> print w line s = (Ok tt, wrote line s).
Proof.
  intros takes. unfold print. rewrite (takes line).
  destruct (is_ascii_text line); reflexivity.
Qed.

Lemma bind_print {A} (w : env) (line : string) (k : unit -> M A) (s : state) :
  takes_all w -> bind (print w line) k s = k tt (wrote line s).
Proof. intros takes. unfold bind. now rewrite print_taken. Qed.

Lemma contains_print (w : env) (line : string) :
  takes_all w -> contains_errors (print w line).
Proof. intros takes s msg. now rewrite print_taken. Qed.

Lemma contains_eprint (line : string) : contains_errors (eprint line).
Proof. intros s msg. discriminate. Qed.

Lemma contains_self : contains_errors self.
Proof. intros s msg. discriminate. Qed.

Lemma contains_bind {A B} (m : M A) (k : A -> M B) :
  contains_errors m -> (forall a, contains_errors (k a)) ->
  contains_errors (bind m k).
Proof.
  intros Hm Hk s msg. unfold bind. specialize (Hm s msg).
  destruct (m s) as [[a|e] s1]; simpl in *; [apply Hk|].
  intros [= ->]. now apply Hm.
Qed.

Lemma contains_try_except {A} (body : M A) (handler : string -> M A) :
  (forall msg, contains_errors (handler msg)) ->
  contains_errors (try_except body handler).
Proof.
  intros Hh s msg. unfold try_except.
  destruct (body s) as [[a|[msg'|]] s1]; simpl; try discriminate.
  apply Hh.
Qed.

Lemma contains_if {A} (c : bool) (m1 m2 : M A) :
  contains_errors m1 -> contains_errors m2 ->
  contains_errors (if c then m1 else m2).
Proof. destruct c; auto. Qed.

Lemma contains_probe (w : env) : contains_errors (_is_http_available w).
Proof.
  intros s msg.
  destruct (probe_outcome w s) as (b & evs & s' & Hp & _). now rewrite Hp.
Qed.

Lemma appends_ret {A} (a : A) : appends (ret a).
Proof. intros s. split; [exists []; now rewrite app_nil_r|reflexivity]. Qed.

Lemma appends_print (w : env) (line : string) : appends (print w line).
Proof.
  intros s. unfold exec. rewrite print_run.
  destruct (stdout_answer w line); simpl.
  - split; [exists []; now rewrite app_nil_r|reflexivity].
  - split; [now exists [line]|reflexivity].
Qed.

Lemma appends_silent {A} (m : M A) : preserves streams m -> appends m.
Proof.
  intros Hm s. specialize (Hm s). unfold streams in Hm. injection Hm as Ho He.
  split; [exists []; now rewrite app_nil_r|exact He].
Qed.

Lemma appends_bind {A B} (m : M A) (k : A -> M B) :
  appends m -> (forall a, appends (k a)) -> appends (bind m k).
Proof.
  intros Hm Hk s. unfold exec, bind. specialize (Hm s). unfold exec in Hm.
  destruct (m s) as [[a|e] s1]; simpl in *; [|exact Hm].
  destruct Hm as [[l1 Ho] He]. destruct (Hk a s1) as [[l2 Ho2] He2].
  unfold exec in Ho2, He2. split.
  - exists (l1 ++ l2)%list. now rewrite Ho2, Ho, app_assoc.
  - now rewrite He2.
Qed.

Lemma appends_try_except {A} (body : M A) (handler : string -> M A) :
  appends body -> (forall msg, appends (handler msg)) ->
  appends (try_except body handler).
Proof.
  intros Hb Hh s. unfold exec, try_except. specialize (Hb s). unfold exec in Hb.
  destruct (body s) as [[a|[msg|]] s1]; simpl in *; try exact Hb.
  destruct Hb as [[l1 Ho] He]. destruct (Hh msg s1) as [[l2 Ho2] He2].
  unfold exec in Ho2, He2. split.
  - exists (l1 ++ l2)%list. now rewrite Ho2, Ho, app_assoc.
  - now rewrite He2.
Qed.

Lemma appends_if {A} (c : bool) (m1 m2 : M A) :
  appends m1 -> appends m2 -> appends (if c then m1 else m2).
Proof. destruct c; auto. Qed.

Lemma appends_lift {A} (r : result A) : appends (lift r).
Proof. intros s. split; [exists []; now rewrite app_nil_r|reflexivity]. Qed.

Lemma appends_get_clipboard (w : env) : appends (get_clipboard w).
Proof.
  apply appends_silent, preserves_get; [reflexivity|]. intros v s. reflexivity.
Qed.

Lemma appends_set_clipboard (w : env) (txt : string) : appends (set_clipboard w txt).
Proof.
  apply appends_silent, preserves_set; [reflexivity|]. intros v s. reflexivity.
Qed.

Lemma appends_probe (w : env) : appends (_is_http_available w).
Proof.
  apply appends_silent, preserves_probe; [reflexivity|]. intros v s. reflexivity.
Qed.

(** *** The self-test harness *)

Section HarnessProperties.

Variable w : env.
Variable repr : pyval -> string.

Lemma basic_loop_contains (cases : list (string * string)) (p t : Z) :
  takes_all w -> contains_errors (basic_loop w repr cases p t).
Proof.
  intros takes. revert p t.
  induction cases as [|[name txt] cases IH]; intros p t; simpl.
  - apply contains_ret.
  - apply contains_bind; [|intros; apply IH].
    apply contains_try_except. intros msg.
    apply contains_bind; [now apply contains_print|intros; apply contains_ret].
Qed.



Lemma printed_stdout (lines : list string) (s : state) :
  sys_stdout (printed lines s) = (sys_stdout s ++ lines)%list.
Proof.
  revert s. induction lines as [|l lines IH]; intros s.
  - simpl. now rewrite app_nil_r.
  - cbn [printed fold_left]. fold (printed lines (wrote l s)).
    rewrite IH. simpl. now rewrite <- app_assoc.
Qed.

Lemma printed_rest (lines : list string) (s : state) :
  sys_stderr (printed lines s) = sys_stderr s
  /\ trace (printed lines s) = trace s
  /\ _clipboard (printed lines s) = _clipboard s.
Proof.
  revert s. induction lines as [|l lines IH]; intros s; [auto|].
  cbn [printed fold_left]. fold (printed lines (wrote l s)).
  destruct (IH (wrote l s)) as (-> & -> & ->). auto.
Qed.


Lemma run_basic_tests_contains :
  takes_all w -> contains_errors (run_basic_tests w repr).
Proof.
  intros takes. unfold run_basic_tests.
  repeat (apply contains_bind; [now apply contains_print|intros _]).
  apply contains_bind; [now apply basic_loop_contains|intros counters].
  repeat (apply contains_bind; [now apply contains_print|intros _]).
  apply contains_ret.
Qed.


(** X18.  The handler of a fixture prints outside any [try]: when setting
    the first fixture fails and standard output cannot take the ERROR line
    that reports it, the encoding error of that print leaves
    [run_basic_tests], after the four lines of the heading and before any
    other fixture is tried. *)
Theorem run_basic_tests_print_escapes (s s1 : state) (msg complaint : string)
    (set_fails :
       set_clipboard w "Hello, World!"
         (printed [bar; "BASIC CLIPBOARD TESTS"; bar; ""] s)
       = (Raise (Exception msg), s1))
    (rejected :
       stdout_rejects w ("✗ " ++ ljust "Simple text" 20 ++ " ERROR: " ++ msg)
       = Some complaint) :
  run_basic_tests w repr s = (Raise (Exception complaint), s1).
Proof.
  unfold run_basic_tests. unfold bind at 1 2 3 4 5.
  change (print w bar s) with (Ok tt, wrote bar s).
  cbv beta iota.
  change (print w "BASIC CLIPBOARD TESTS" (wrote bar s))
    with (Ok tt, wrote "BASIC CLIPBOARD TESTS" (wrote bar s)).
  cbv beta iota.
  change (print w bar (wrote "BASIC CLIPBOARD TESTS" (wrote bar s)))
    with (Ok tt, wrote bar (wrote "BASIC CLIPBOARD TESTS" (wrote bar s))).
  cbv beta iota.
  change (print w "" (wrote bar (wrote "BASIC CLIPBOARD TESTS" (wrote bar s))))
    with (Ok tt, printed [bar; "BASIC CLIPBOARD TESTS"; bar; ""] s).
  cbv beta iota.
  unfold test_cases. cbn [basic_loop].
  unfold bind at 1. unfold try_except at 1. unfold bind at 1.
  rewrite set_fails. cbv beta iota.
  unfold bind at 1. rewrite print_run.
  change (stdout_answer w ("✗ " ++ ljust "Simple text" 20 ++ " ERROR: " ++ msg))
    with (stdout_rejects w ("✗ " ++ ljust "Simple text" 20 ++ " ERROR: " ++ msg)).
  rewrite rejected. reflexivity.
Qed.

Lemma rapid_loop_appends (todo : list Z) (n : Z) : appends (rapid_loop w todo n).
Proof.
  revert n. induction todo as [|i todo IH]; intros n; simpl.
  - apply appends_ret.
  - apply appends_bind; [apply appends_set_clipboard|]. intros _.
    apply appends_bind; [apply appends_get_clipboard|]. intros retrieved.
    apply IH.
Qed.

Lemma stress_test_1_step : test_step w (stress_test_1 w).
Proof.
  intros p. unfold stress_test_1. split; [|split].
  - intros takes.
    apply contains_bind; [now apply contains_print|intros _].
    apply contains_try_except. intros msg.
    apply contains_bind; [now apply contains_print|intros; apply contains_ret].
  - apply appends_bind; [apply appends_print|intros _].
    apply appends_try_except.
    + apply appends_bind; [apply appends_set_clipboard|]. intros _.
      apply appends_bind; [apply appends_get_clipboard|]. intros retrieved.
      apply appends_if;
        (apply appends_bind; [apply appends_lift|intros n];
         apply appends_bind; [apply appends_print|intros _]; apply appends_ret).
    + intros msg.
      apply appends_bind; [apply appends_print|intros; apply appends_ret].
  - apply yields_bind. intros _. apply yields_try_except.
    + apply yields_bind. intros _. apply yields_bind. intros retrieved.
      apply yields_if;
        (apply yields_bind; intros n; apply yields_bind; intros _;
         apply yields_ret; lia).
    + intros msg. apply yields_bind. intros _. apply yields_ret. lia.
Qed.

Lemma stress_test_2_step : test_step w (stress_test_2 w).
Proof.
  intros p. unfold stress_test_2. split; [|split].
  - intros takes.
    apply contains_bind; [now apply contains_print|intros _].
    apply contains_try_except. intros msg.
    apply contains_bind; [now apply contains_print|intros; apply contains_ret].
  - apply appends_bind; [apply appends_print|intros _].
    apply appends_try_except.
    + apply appends_bind; [apply rapid_loop_appends|]. intros n.
      apply appends_if;
        (apply appends_bind; [apply appends_print|intros _]; apply appends_ret).
    + intros msg.
      apply appends_bind; [apply appends_print|intros; apply appends_ret].
  - apply yields_bind. intros _. apply yields_try_except.
    + apply yields_bind. intros n.
      apply yields_if; (apply yields_bind; intros _; apply yields_ret; lia).
    + intros msg. apply yields_bind. intros _. apply yields_ret. lia.
Qed.

Lemma stress_test_3_step : test_step w (stress_test_3 w).
Proof.
  intros p. unfold stress_test_3. split; [|split].
  - intros takes.
    apply contains_bind; [now apply contains_print|intros _].
    apply contains_try_except. intros msg.
    apply contains_bind; [now apply contains_print|intros; apply contains_ret].
  - apply appends_bind; [apply appends_print|intros _].
    apply appends_try_except.
    + apply appends_bind; [apply appends_set_clipboard|]. intros _.
      apply appends_bind; [apply appends_get_clipboard|]. intros retrieved.
      apply appends_if;
        (apply appends_bind; [apply appends_print|intros _]; apply appends_ret).
    + intros msg.
      apply appends_bind; [apply appends_print|intros; apply appends_ret].
  - apply yields_bind. intros _. apply yields_try_except.
    + apply yields_bind. intros _. apply yields_bind. intros retrieved.
      apply yields_if; (apply yields_bind; intros _; apply yields_ret; lia).
    + intros msg. apply yields_bind. intros _. apply yields_ret. lia.
Qed.

Lemma stress_tests_spec :
  (takes_all w -> contains_errors (stress_tests w))
  /\ appends (stress_tests w)
  /\ yields (fun k => 0 <= k <= 3) (stress_tests w).
Proof.
  unfold stress_tests. split; [|split].
  - intros takes.
    apply contains_bind; [now apply (proj1 (stress_test_1_step 0))|intros p1].
    apply contains_bind; [now apply (proj1 (stress_test_2_step p1))|intros p2].
    now apply (proj1 (stress_test_3_step p2)).
  - apply appends_bind; [apply stress_test_1_step|intros p1].
    apply appends_bind; [apply stress_test_2_step|intros p2].
    apply stress_test_3_step.
  - apply (yields_bind_with (fun p1 => 0 <= p1 <= 1));
      [apply (stress_test_1_step 0)|intros p1 H1].
    apply (yields_bind_with (fun p2 => p1 <= p2 <= p1 + 1));
      [apply (stress_test_2_step p1)|intros p2 H2].
    intros s k Hk. pose proof (proj2 (proj2 (stress_test_3_step p2)) s k Hk).
    simpl in H. lia.
Qed.

Lemma run_stress_tests_run (s : state) :
  takes_all w ->
  run_stress_tests w s
  = match stress_tests w (printed [NEWLINE ++ bar; "STRESS TESTS"; bar; ""] s) with
    | (Ok k, s2) =>
        (Ok (k =? 3),
         printed [""; bar;
                  "Stress Tests: " ++ str_of_int k ++ "/" ++ str_of_int 3 ++ " passed";
                  bar] s2)
    | (Raise e, s2) => (Raise e, s2)
    end.
Proof.
  intros takes. unfold run_stress_tests, stress_tests.
  repeat (rewrite bind_print by exact takes; cbv beta).
  cbv [printed fold_left bind].
  destruct (stress_test_1 w 0 _) as [[p1|e] s2]; [|reflexivity].
  destruct (stress_test_2 w p1 s2) as [[p2|e] s3]; [|reflexivity].
  destruct (stress_test_3 w p2 s3) as [[p3|e] s4]; [|reflexivity].
  repeat (rewrite print_taken by exact takes; cbv beta iota).
  reflexivity.
Qed.

Lemma run_stress_tests_contains :
  takes_all w -> contains_errors (run_stress_tests w).
Proof.
  intros takes s msg. rewrite (run_stress_tests_run s takes).
  pose proof (proj1 stress_tests_spec takes
                (printed [NEWLINE ++ bar; "STRESS TESTS"; bar; ""] s))
    as Hce.
  destruct (stress_tests w _) as [[k|e] s2]; cbn [fst] in *; [discriminate|].
  intros [= ->]. now apply (Hce msg).
Qed.

(** X12.  Behind a standard output that takes every line,
    [run_stress_tests] lets no exception but an interrupt out.  When it
    returns, it has only added lines to standard output, ending with the
    blank line, the bar, the tally [Stress Tests: k/3 passed] and the bar,
    for some [k] from 0 to 3, and the value it returns is true exactly when
    [k] is 3. *)
Theorem run_stress_tests_report (s : state) (takes : takes_all w) :
  (forall msg, fst (run_stress_tests w s) <> Raise (Exception msg))
  /\ (forall b,
        fst (run_stress_tests w s) = Ok b ->
        exists k lines,
          0 <= k <= 3
          /\ b = (k =? 3)
          /\ sys_stdout (exec (run_stress_tests w) s)
             = (sys_stdout s ++ lines
                ++ [""; bar;
                    ("Stress Tests: " ++ str_of_int k ++ "/3 passed")%string;
                    bar])%list
          /\ sys_stderr (exec (run_stress_tests w) s) = sys_stderr s).
Proof.
  destruct stress_tests_spec as (Hce & Happ & Hy).
  unfold exec. rewrite (run_stress_tests_run s takes).
  set (s1 := printed _ s).
  specialize (Hce takes s1). specialize (Hy s1).
  destruct (Happ s1) as [[lines Hout] Herr]. unfold exec in Hout, Herr.
  destruct (stress_tests w s1) as [[k|e] s2]; cbn [fst snd] in *.
  - split; [discriminate|]. intros b [= <-].
    exists k, ([(NEWLINE ++ bar)%string; "STRESS TESTS"; bar; ""] ++ lines)%list.
    split; [apply (Hy k eq_refl)|]. split; [reflexivity|].
    destruct (printed_rest [""; bar;
                            "Stress Tests: " ++ str_of_int k ++ "/" ++ str_of_int 3
                            ++ " passed"; bar] s2) as (-> & _).
    rewrite printed_stdout, Hout, Herr. subst s1.
    rewrite printed_stdout.
    destruct (printed_rest [NEWLINE ++ bar; "STRESS TESTS"; bar; ""] s) as (-> & _).
    split; [|reflexivity]. rewrite <- !app_assoc. reflexivity.
  - split; [|discriminate]. intros msg [= ->]. now apply (Hce msg).
Qed.

End HarnessProperties.

Section HarnessEdges.

Variable w : env.
Variable repr : pyval -> string.

(** X13.  In the first stress test, when the text is set and the clipboard
    then reads back as a value that has no length ([None], a boolean or a
    number), the test is not reported as a FAIL: building the FAIL line
    raises a type error, which the handler of the test catches.  When
    standard output takes the ERROR line with that message, the test is
    reported as an ERROR and the counter stays as it was; when it does not
    take the line, the encoding error of the handler's print leaves the
    test. *)
Theorem stress_test_1_unsized (p : Z) (s s1 s2 : state) (done : bool) (v : pyval)
    (msg : string)
    (was_set :
       set_clipboard w large_text
         (wrote "TEST 1: Large text (5000 characters)" s) = (Ok done, s1))
    (read_back : get_clipboard w s1 = (Ok v, s2))
    (unsized : py_len v = Raise (Exception msg)) :
  stress_test_1 w p s
  = match stdout_rejects w ("  ✗ ERROR: " ++ msg) with
    | None => (Ok p, wrote ("  ✗ ERROR: " ++ msg) s2)
    | Some complaint => (Raise (Exception complaint), s2)
    end.
Proof.
  unfold stress_test_1. unfold bind at 1.
  change (print w "TEST 1: Large text (5000 characters)" s)
    with (Ok tt, wrote "TEST 1: Large text (5000 characters)" s).
  cbv beta iota.
  unfold try_except, bind. rewrite was_set, read_back.
  assert (Hline : print w ("  ✗ ERROR: " ++ msg) s2
                  = match stdout_rejects w ("  ✗ ERROR: " ++ msg) with
                    | None => (Ok tt, wrote ("  ✗ ERROR: " ++ msg) s2)
                    | Some complaint => (Raise (Exception complaint), s2)
                    end) by reflexivity.
  destruct v; try discriminate; cbn [py_eq_str]; unfold lift;
    rewrite unsized; cbv beta iota; rewrite Hline;
    destruct (stdout_rejects w _); reflexivity.
Qed.

End HarnessEdges.

Lemma stress_test_1_unsized_witness :
  let dev := Sample.device (Sample.adb_exits 0 "" "")
                           (fun _ => Sample.refused) (fun _ => Sample.refused) in
  let s := Sample.start adb None in
  let s0 := wrote "TEST 1: Large text (5000 characters)" s in
  let s1 := exec (set_clipboard dev large_text) s0 in
  let s2 := exec (get_clipboard dev) s1 in
  set_clipboard dev large_text s0 = (Ok true, s1)
  /\ get_clipboard dev s1 = (Ok PyNone, s2)
  /\ py_len PyNone = Raise (Exception "object of type 'NoneType' has no len()")
  /\ stress_test_1 dev 0 s
     = (Ok 0, wrote "  ✗ ERROR: object of type 'NoneType' has no len()" s2).
Proof.
  split; [reflexivity|]. split; [reflexivity|]. split; [reflexivity|].
  exact (stress_test_1_unsized
           (Sample.device (Sample.adb_exits 0 "" "")
                          (fun _ => Sample.refused) (fun _ => Sample.refused))
           0 (Sample.start adb None) _ _ true PyNone
           "object of type 'NoneType' has no len()" eq_refl eq_refl eq_refl).
Defined.

Section SuiteProperties.

Variable w : env.
Variable repr : pyval -> string.

Lemma run_all_tests_contains :
  takes_all w -> contains_errors (run_all_tests w repr).
Proof.
  intros takes. unfold run_all_tests.
  apply contains_bind; [now apply run_basic_tests_contains|intros basic_passed].
  apply contains_bind; [now apply run_stress_tests_contains|intros stress_passed].
  repeat (apply contains_bind; [now apply contains_print|intros _]).
  apply contains_bind; [apply contains_self|intros me].
  apply contains_bind; [apply contains_probe|intros available].
  apply contains_bind; [destruct available; now apply contains_print|intros _].
  apply contains_if;
    (apply contains_bind; [now apply contains_print|intros _; apply contains_ret]).
Qed.

Lemma run_all_tests_yields : yields (fun code => code = 0 \/ code = 1) (run_all_tests w repr).
Proof.
  unfold run_all_tests.
  repeat (apply yields_bind; intros ?).
  apply yields_if; (apply yields_bind; intros _; apply yields_ret; auto).
Qed.

Lemma bind_print_cache {A} (line : string) (k : unit -> M A) (s sf : state) (a : A) :
  (forall s', cache s' = cache s -> k tt s' = (Ok a, sf) -> cache sf <> None) ->
  bind (print w line) k s = (Ok a, sf) -> cache sf <> None.
Proof.
  intros Hk. unfold bind. rewrite print_run.
  destruct (stdout_answer w line); [discriminate|].
  apply Hk. reflexivity.
Qed.

Lemma run_all_tests_probes (s sf : state) (code : Z) :
  run_all_tests w repr s = (Ok code, sf) -> cache sf <> None.
Proof.
  unfold run_all_tests. unfold bind at 1.
  destruct (run_basic_tests w repr s) as [[bp|e] s1]; [|discriminate].
  unfold bind at 1.
  destruct (run_stress_tests w s1) as [[sp|e] s2]; [|discriminate].
  apply bind_print_cache. intros s3 _.
  apply bind_print_cache. intros s4 _.
  apply bind_print_cache. intros s5 _.
  unfold bind at 1. cbn [self]. unfold bind at 1.
  destruct (probe_outcome w s5) as (b & evs & s6 & Hp & _ & _ & _ & Hb).
  rewrite Hp.
  assert (Hlast : forall (c : bool) (sa : state),
             cache sa = Some b ->
             (if c then print w (NEWLINE ++ "🎉 ALL TESTS PASSED!") ;; ret 0
              else print w (NEWLINE ++ "⚠️  SOME TESTS FAILED") ;; ret 1) sa
             = (Ok code, sf) ->
             cache sf <> None).
  { intros c sa Ha.
    destruct c; apply bind_print_cache; intros sb Hsb [= _ <-];
      rewrite Hsb, Ha; discriminate. }
  destruct b; apply bind_print_cache; intros s7 H7;
    apply Hlast; now rewrite H7.
Qed.

(** X14.  [run_all_tests] returns 0 or 1 when it returns, and the flag of
    the instance is then filled: it asks the probe which transport was
    used, whatever the mode, so also in [adb] mode, where [get] and [set]
    never probe.  Behind a standard output that takes every line, it lets
    no exception but an interrupt out. *)
Theorem run_all_tests_report (s : state) :
  (takes_all w -> forall msg, fst (run_all_tests w repr s) <> Raise (Exception msg))
  /\ (forall code,
        fst (run_all_tests w repr s) = Ok code ->
        (code = 0 \/ code = 1)
        /\ cache (exec (run_all_tests w repr) s) <> None).
Proof.
  split; [intros takes; now apply run_all_tests_contains|].
  intros code Hc. split.
  - apply (run_all_tests_yields s code Hc).
  - unfold exec. destruct (run_all_tests w repr s) as [r sf] eqn:Hrun.
    cbn [fst snd] in *. subst r. apply (run_all_tests_probes s sf code Hrun).
Qed.

Lemma main_body_yields (args : Namespace) (s : state) (code : Z) :
  fst (cli_main w repr args s) = Ok code ->
  code = 0 \/ code = 1 \/ code = 130.
Proof.
  unfold cli_main, main. unfold bind at 1. cbn [set_global fst snd]. unfold try_main.
  match goal with
  | |- context [match ?body ?s0 with _ => _ end] =>
      assert (Hy : yields (fun c => c = 0 \/ c = 1) body);
      [|specialize (Hy s0); destruct (body s0) as [[c|[msg|]] s1]]
  end.
  - destruct (args_action args).
    + apply yields_bind. intros txt.
      destruct txt; apply yields_bind; intros _; apply yields_ret; auto.
    + destruct (args_text args) as [t|].
      * apply yields_bind. intros [|]; apply yields_bind; intros _;
          apply yields_ret; auto.
      * repeat (apply yields_bind; intros _). apply yields_ret. auto.
    + destruct (args_basic args); [|destruct (args_stress args)].
      * apply yields_bind. intros [|]; apply yields_ret; auto.
      * apply yields_bind. intros [|]; apply yields_ret; auto.
      * apply run_all_tests_yields.
  - cbn [fst]. intros [= <-]. destruct (Hy c eq_refl); auto.
  - cbn. intros [= <-]. auto.
  - cbn. intros [= <-]. auto.
Qed.

(** X15.  [main] never raises: whatever the arguments, the environment
    and the state it starts from, it returns an exit code, and that code is
    0, 1 or 130. *)
Theorem cli_main_exit_codes (args : Namespace) (s : state) :
  exists code,
    fst (cli_main w repr args s) = Ok code
    /\ (code = 0 \/ code = 1 \/ code = 130).
Proof.
  assert (H : exists code, fst (cli_main w repr args s) = Ok code).
  { unfold cli_main, main. unfold bind at 1. cbn [set_global fst snd].
    unfold try_main.
    match goal with
    | |- context [match ?body ?s0 with _ => _ end] =>
        destruct (body s0) as [[c|[msg|]] s1]
    end; cbn; eauto. }
  destruct H as [code Hc]. exists code. split; [exact Hc|].
  apply (main_body_yields args s code Hc).
Qed.

End SuiteProperties.

(** *** More on the command line *)

Section MainOutcomes.

Variable w : env.
Variable run_basic_tests run_stress_tests : M bool.
Variable run_all_tests : M Z.


(** X17.  The [set] action with a text argument.  When the facade returns
    false, the failure line goes to the error stream and the exit code is
    1; an exception of the facade is reported as [Error: ...] with exit
    code 1; an interrupt gives exit code 130.  When the facade returns true
    and the text is of ASCII characters, the confirmation names the number
    of characters of the text and the exit code is 0 if standard output
    takes the confirmation line; if it does not, nothing is printed, the
    encoding error is reported as [Error: ...] on the error stream and the
    exit code is 1. *)
Theorem main_set_outcomes (args : Namespace) (s : state) (txt : string)
    (is_set : args_action args = act_set)
    (has_text : args_text args = Some txt) :
  (fst (set w txt (entered args s)) = Ok true ->
   is_ascii_text txt = true ->
   let line := ("✓ Clipboard set successfully ("
                ++ str_of_int (Z.of_nat (String.length txt)) ++ " chars)")%string in
   (stdout_rejects w line = None ->
    fst (main w run_basic_tests run_stress_tests run_all_tests args s) = Ok 0
    /\ sys_stdout (exec (main w run_basic_tests run_stress_tests run_all_tests args) s)
       = (sys_stdout s ++ [line])%list
    /\ sys_stderr (exec (main w run_basic_tests run_stress_tests run_all_tests args) s)
       = sys_stderr s)
   /\ (forall complaint,
         stdout_rejects w line = Some complaint ->
         fst (main w run_basic_tests run_stress_tests run_all_tests args s) = Ok 1
         /\ sys_stdout (exec (main w run_basic_tests run_stress_tests run_all_tests args) s)
            = sys_stdout s
         /\ sys_stderr (exec (main w run_basic_tests run_stress_tests run_all_tests args) s)
            = (sys_stderr s ++ [("Error: " ++ complaint)%string])%list))
  /\ (fst (set w txt (entered args s)) = Ok false ->
      fst (main w run_basic_tests run_stress_tests run_all_tests args s) = Ok 1
      /\ sys_stderr (exec (main w run_basic_tests run_stress_tests run_all_tests args) s)
         = (sys_stderr s ++ ["✗ Failed to set clipboard"])%list
      /\ sys_stdout (exec (main w run_basic_tests run_stress_tests run_all_tests args) s)
         = sys_stdout s)
  /\ (forall msg,
        fst (set w txt (entered args s)) = Raise (Exception msg) ->
        fst (main w run_basic_tests run_stress_tests run_all_tests args s) = Ok 1
        /\ sys_stderr (exec (main w run_basic_tests run_stress_tests run_all_tests args) s)
           = (sys_stderr s ++ [("Error: " ++ msg)%string])%list
        /\ sys_stdout (exec (main w run_basic_tests run_stress_tests run_all_tests args) s)
           = sys_stdout s)
  /\ (fst (set w txt (entered args s)) = Raise KeyboardInterrupt ->
      fst (main w run_basic_tests run_stress_tests run_all_tests args s) = Ok 130
      /\ sys_stderr (exec (main w run_basic_tests run_stress_tests run_all_tests args) s)
         = (sys_stderr s ++ [String LF (String LF "Interrupted by user")])%list
      /\ sys_stdout (exec (main w run_basic_tests run_stress_tests run_all_tests args) s)
         = sys_stdout s).
Proof.
  unfold exec.
  rewrite (main_set_run w run_basic_tests run_stress_tests run_all_tests args s txt
             is_set has_text).
  destruct (silent_set w txt (entered args s)) as [Hout Herr].
  unfold exec in Hout, Herr.
  change (sys_stdout (entered args s)) with (sys_stdout s) in Hout.
  change (sys_stderr (entered args s)) with (sys_stderr s) in Herr.
  destruct (set w txt (entered args s)) as [r s1]. cbn [fst snd] in *.
  split; [|repeat split; intros; subst r; cbn; rewrite ?Hout, ?Herr; auto].
  intros -> _. unfold len.
  set (line := ("✓ Clipboard set successfully ("
                ++ str_of_int (Z.of_nat (String.length txt)) ++ " chars)")%string).
  assert (Hline : print w line s1
                  = match stdout_rejects w line with
                    | None => (Ok tt, wrote line s1)
                    | Some complaint => (Raise (Exception complaint), s1)
                    end) by reflexivity.
  unfold bind. rewrite Hline. split.
  - intros ->. cbn. rewrite Hout, Herr. auto.
  - intros complaint ->. cbn. rewrite Hout, Herr. auto.
Qed.

End MainOutcomes.


Lemma main_set_outcomes_witness :
  let dev := Sample.device (Sample.adb_exits 1 "" "adb: error: no devices/emulators found")
                           (fun _ => Sample.refused) (fun _ => Sample.refused) in
  let args := Sample.cli act_set (Some "It's") adb in
  let s := Sample.start auto None in
  args_action args = act_set
  /\ args_text args = Some "It's"
  /\ fst (set dev "It's" (entered args s)) = Ok false
  /\ fst (main dev (ret true) (ret true) (ret 0) args s) = Ok 1
  /\ sys_stderr (exec (main dev (ret true) (ret true) (ret 0) args) s)
     = ["✗ Failed to set clipboard"]
  /\ sys_stdout (exec (main dev (ret true) (ret true) (ret 0) args) s) = [].
Proof.
  split; [reflexivity|]. split; [reflexivity|]. split; [reflexivity|].
  apply (proj1 (proj2 (main_set_outcomes
           (Sample.device (Sample.adb_exits 1 "" "adb: error: no devices/emulators found")
                          (fun _ => Sample.refused) (fun _ => Sample.refused))
           (ret true) (ret true) (ret 0)
           (Sample.cli act_set (Some "It's") adb) (Sample.start auto None) "It's"
           eq_refl eq_refl))).
  reflexivity.
Defined.

(** *** The harness on a device where nothing works *)


Lemma run_basic_tests_print_escapes_witness :
  let complaint :=
    "'ascii' codec can't encode character '\u2717' in position 0: ordinal not in range(128)" in
  let dev := Bench.ascii_stdout complaint Bench.dead in
  let s := Sample.start adb None in
  let s0 := printed [bar; "BASIC CLIPBOARD TESTS"; bar; ""] s in
  let s1 := exec (set_clipboard dev "Hello, World!") s0 in
  set_clipboard dev "Hello, World!" s0
  = (Raise (Exception "ADB SET failed: [Errno 2] No such file or directory: 'adb'"), s1)
  /\ run_basic_tests dev Bench.repr s = (Raise (Exception complaint), s1).
Proof.
  split; [reflexivity|].
  exact (run_basic_tests_print_escapes
           (Bench.ascii_stdout
              "'ascii' codec can't encode character '\u2717' in position 0: ordinal not in range(128)"
              Bench.dead)
           Bench.repr (Sample.start adb None) _
           "ADB SET failed: [Errno 2] No such file or directory: 'adb'" _
           eq_refl eq_refl).
Defined.

Lemma run_stress_tests_report_witness :
  let s := Sample.start adb None in
  takes_all Bench.dead
  /\ fst (run_stress_tests Bench.dead s) = Ok false
  /\ exists k lines,
       0 <= k <= 3
       /\ false = (k =? 3)
       /\ sys_stdout (exec (run_stress_tests Bench.dead) s)
          = (sys_stdout s ++ lines
             ++ [""; bar;
                 ("Stress Tests: " ++ str_of_int k ++ "/3 passed")%string;
                 bar])%list
       /\ sys_stderr (exec (run_stress_tests Bench.dead) s) = sys_stderr s.
Proof.
  split; [intros line; reflexivity|].
  split; [vm_compute; reflexivity|].
  apply (proj2 (run_stress_tests_report Bench.dead (Sample.start adb None)
                  (fun line => eq_refl))).
  vm_compute. reflexivity.
Defined.

Lemma run_all_tests_report_witness :
  let s := Sample.start adb None in
  cache s = None
  /\ takes_all Bench.dead
  /\ fst (run_all_tests Bench.dead Bench.repr s) = Ok 1
  /\ (forall msg, fst (run_all_tests Bench.dead Bench.repr s) <> Raise (Exception msg))
  /\ (1 = 0 \/ 1 = 1)
  /\ cache (exec (run_all_tests Bench.dead Bench.repr) s) <> None.
Proof.
  split; [reflexivity|]. split; [intros line; reflexivity|].
  split; [vm_compute; reflexivity|].
  split.
  - apply (proj1 (run_all_tests_report Bench.dead Bench.repr (Sample.start adb None))).
    intros line. reflexivity.
  - apply (proj2 (run_all_tests_report Bench.dead Bench.repr (Sample.start adb None))).
    vm_compute. reflexivity.
Defined.

Example dead_device_exit_code :
  fst (cli_main Bench.dead Bench.repr (Sample.cli act_test None auto)
                (Sample.start auto None)) = Ok 1.
Proof. vm_compute. reflexivity. Qed.

Example dead_device_ascii_stdout :
  let dev := Bench.ascii_stdout "'ascii' codec can't encode character" Bench.dead in
  let final := cli_main dev Bench.repr (Sample.cli act_test None adb)
                        (Sample.start auto None) in
  fst final = Ok 1
  /\ sys_stderr (snd final) = ["Error: 'ascii' codec can't encode character"]
  /\ sys_stdout (snd final) = [bar; "BASIC CLIPBOARD TESTS"; bar; ""].
Proof. vm_compute. repeat split. Qed.
